(** * Cluster submission adapters [Snakefile_qsub.py] and [Snakefile_sbatch.py]

    A shallow embedding of the two submission scripts of
    [src/scheduling/] and the properties of their specification.

    The scripts are Python 3 programs.  Text ([str]) and captured process
    output ([bytes]) are both sequences of 8-bit characters here; a
    dictionary is an association list in insertion order; the effects of
    [schedule] (directory creation, the two output streams, the child
    process) are recorded in an event trace next to the raised exception
    or the returned value. *)

From Stdlib Require Import String Ascii List ZArith Lia Bool.
From Stdlib Require Import DecimalString DecimalPos.
Import ListNotations.
Local Open Scope string_scope.
Local Open Scope Z_scope.

(** ** Python text primitives *)

Module Py.

(** [bytes] objects, as returned by [Popen(...).communicate()]. *)
Definition bytes := string.

(** ASCII whitespace, the separators of [bytes.split()] and the characters
    [int()] strips: tab, line feed, vertical tab, form feed, carriage return
    and space. *)
Definition isspace (c : ascii) : bool :=
  let n := nat_of_ascii c in
  ((9 <=? n) && (n <=? 13))%nat || (n =? 32)%nat.

Definition flush (tok : list ascii) : list string :=
  match tok with
  | [] => []
  | _ => [string_of_list_ascii (rev tok)]
  end.

(** [split_from tok s]: the tokens of [s], where [tok] holds (reversed) the
    characters of the token being read. *)
Fixpoint split_from (tok : list ascii) (s : string) : list string :=
  match s with
  | EmptyString => flush tok
  | String c s' =>
      if isspace c then (flush tok ++ split_from [] s')%list
      else split_from (c :: tok) s'
  end.

(** [x.split()] with no argument: the maximal runs of non-whitespace. *)
Definition split (s : bytes) : list bytes := split_from [] s.

(** [l[i]] for a non-negative literal index; [None] is [IndexError]. *)
Definition index {A} (l : list A) (i : nat) : option A := nth_error l i.

(** [l[-1]]; [None] is [IndexError]. *)
Fixpoint index_last {A} (l : list A) : option A :=
  match l with
  | [] => None
  | [x] => Some x
  | _ :: l' => index_last l'
  end.

Definition digit_value (c : ascii) : option Z :=
  let n := nat_of_ascii c in
  if ((48 <=? n) && (n <=? 57))%nat then Some (Z.of_nat (n - 48)) else None.

Definition is_underscore (c : ascii) : bool := (nat_of_ascii c =? 95)%nat.

(** The digit scan of [int()] in base 10: digits with single underscores
    between them; a doubled or a trailing underscore is an error.  Returns
    the value read and the unread rest. *)
Fixpoint scan_digits (acc : Z) (prev_underscore : bool) (s : string)
  : option (Z * string) :=
  match s with
  | EmptyString => if prev_underscore then None else Some (acc, s)
  | String c s' =>
      if is_underscore c then
        if prev_underscore then None else scan_digits acc true s'
      else
        match digit_value c with
        | Some d => scan_digits (10 * acc + d) false s'
        | None => if prev_underscore then None else Some (acc, s)
        end
  end.

Fixpoint lstrip (s : string) : string :=
  match s with
  | String c s' => if isspace c then lstrip s' else s
  | EmptyString => s
  end.

Definition starts_with_digit (s : string) : bool :=
  match s with
  | String c _ => match digit_value c with Some _ => true | None => false end
  | EmptyString => false
  end.

Definition unsigned_int (s : string) : option Z :=
  if starts_with_digit s then
    match scan_digits 0 false s with
    | Some (n, rest) =>
        match lstrip rest with
        | EmptyString => Some n
        | _ => None
        end
    | None => None
    end
  else None.

(** [int(x)] for a [bytes] (or ASCII [str]) argument; [None] is
    [ValueError].  Surrounding whitespace is stripped, one sign is allowed,
    and the digits follow the rules of [scan_digits].  This is [int] as
    every Python 3 has it for a token of at most 4300 digits; Python 3.11
    and later (and patched earlier versions) raise [ValueError] for a
    longer one, where this definition returns the number. *)
Definition int (x : bytes) : option Z :=
  match lstrip x with
  | String "+" s => unsigned_int s
  | String "-" s => option_map Z.opp (unsigned_int s)
  | s => unsigned_int s
  end.

(** ["%i" % n] and [str(n)] for an [int]: the decimal numeral, with a minus
    sign for a negative number. *)
Definition str_of_int (n : Z) : string := NilZero.string_of_int (Z.to_int n).

Definition hex_digit (n : nat) : ascii :=
  ascii_of_nat (if (n <? 10)%nat then 48 + n else 87 + n).

Definition contains (c : ascii) (s : string) : bool :=
  existsb (Ascii.eqb c) (list_ascii_of_string s).

(** The quote of a [repr]: a double quote (character 34) when the text holds
    a single quote and no double quote, a single quote otherwise. *)
Definition repr_quote (s : string) : ascii :=
  if contains "'" s && negb (contains "034" s) then "034"%char else "'"%char.

Definition escape_char (quote c : ascii) : string :=
  let n := nat_of_ascii c in
  if Ascii.eqb c quote || Ascii.eqb c "\" then String "\" (String c "")
  else if (n =? 9)%nat then "\t"
  else if (n =? 10)%nat then "\n"
  else if (n =? 13)%nat then "\r"
  else if (n <? 32)%nat || (127 <=? n)%nat then
    String "\" (String "x" (String (hex_digit (n / 16)) (String (hex_digit (n mod 16)) "")))
  else String c "".

Fixpoint escape (quote : ascii) (s : string) : string :=
  match s with
  | EmptyString => ""
  | String c s' => escape_char quote c ++ escape quote s'
  end.

(** [repr(b)] of a [bytes] object, which is also [str(b)] and what
    ["%s" % b] substitutes: [b'...'] with the payload escaped. *)
Definition repr_bytes (b : bytes) : string :=
  let q := repr_quote b in
  String "b" (String q (escape q b ++ String q "")).

End Py.

(** ** Python objects and dictionaries *)

(** The objects [json.load] produces (numbers with a fraction apart), which
    are also the values a dependency id can take. *)
#[local] Unset Elimination Schemes.
Inductive obj : Type :=
  | PyNone
  | PyBool (b : bool)
  | PyInt (n : Z)
  | PyStr (s : string)
  | PyList (l : list obj)
  | PyDict (d : list (string * obj)).
#[local] Set Elimination Schemes.

(** A dictionary with [str] keys, in insertion order. *)
Definition dict := list (string * obj).

Fixpoint dict_get (k : string) (d : dict) : option obj :=
  match d with
  | [] => None
  | (k', v) :: d' => if String.eqb k k' then Some v else dict_get k d'
  end.

(** [k in d]. *)
Definition dict_in (k : string) (d : dict) : bool :=
  match dict_get k d with Some _ => true | None => false end.

(** [repr(s)] of an ASCII [str]; a character above 127 stands for part of a
    printable non-ASCII character and is kept. *)
Definition repr_str (s : string) : string :=
  let q := Py.repr_quote s in
  let esc c := if (128 <=? nat_of_ascii c)%nat then String c "" else Py.escape_char q c in
  String q (String.concat "" (map esc (list_ascii_of_string s)) ++ String q "").

Fixpoint repr (o : obj) : string :=
  match o with
  | PyNone => "None"
  | PyBool b => if b then "True" else "False"
  | PyInt n => Py.str_of_int n
  | PyStr s => repr_str s
  | PyList l => "[" ++ String.concat ", " (map repr l) ++ "]"
  | PyDict d =>
      "{" ++ String.concat ", "
               (map (fun kv => let '(k, v) := kv in repr_str k ++ ": " ++ repr v) d)
          ++ "}"
  end.

(** [str(o)], which ["%s" % o] and [str.format] substitute. *)
Definition str (o : obj) : string :=
  match o with
  | PyStr s => s
  | _ => repr o
  end.

(** ** Exceptions, effects and the monad of the scripts *)

Inductive exn : Type :=
  | UndefinedJobRule (msg : string)
  | OSError (errno : Z)
  | KeyError (key : string)
  | TypeError
  | AttributeError
  | IndexError
  | ValueError
  | SystemExit (code : Z).

Inductive event : Type :=
  | Makedirs (directory : string)      (* os.makedirs(directory) *)
  | Stderr (text : string)             (* print(text, file=sys.stderr) *)
  | Popen (cmd : string)               (* subprocess.Popen(cmd, shell=True) *)
  | Stdout (text : string)             (* print(text) *)
  | Traceback (e : exn).               (* the interpreter reports an uncaught exception *)

(** A computation: the effects it performed, and the exception it raised
    or the value it returned. *)
Definition M (A : Type) : Type := (list event * (exn + A))%type.

Definition ret {A} (x : A) : M A := ([], inr x).
Definition raise {A} (e : exn) : M A := ([], inl e).
Definition emit (ev : event) : M unit := ([ev], inr tt).

Definition bind {A B} (m : M A) (f : A -> M B) : M B :=
  match m with
  | (t, inl e) => (t, inl e)
  | (t, inr x) => let '(t', r) := f x in ((t ++ t')%list, r)
  end.

(** [try: m  except ...: h e]; a handler re-raises what it does not catch. *)
Definition try_except {A} (m : M A) (h : exn -> M A) : M A :=
  match m with
  | (t, inl e) => let '(t', r) := h e in ((t ++ t')%list, r)
  | (t, inr x) => (t, inr x)
  end.

Declare Scope py_scope.
Delimit Scope py_scope with py.
Notation "x <- m ;; k" := (bind m (fun x => k))
  (at level 61, m at next level, right associativity) : py_scope.
Notation "m ;; k" := (bind m (fun _ => k))
  (at level 61, right associativity) : py_scope.
Local Open Scope py_scope.

Definition trace {A} (m : M A) : list event := fst m.
Definition result {A} (m : M A) : exn + A := snd m.

(** What [print] wrote to standard output: each text followed by a newline. *)
Fixpoint stdout_of (t : list event) : string :=
  match t with
  | [] => ""
  | Stdout s :: t' => s ++ String "010" (stdout_of t')
  | _ :: t' => stdout_of t'
  end.

(** The texts the script printed to [sys.stderr], in order. *)
Fixpoint stderr_of (t : list event) : list string :=
  match t with
  | [] => []
  | Stderr s :: t' => s :: stderr_of t'
  | _ :: t' => stderr_of t'
  end.

(** The command lines handed to a child process, in order. *)
Fixpoint spawned (t : list event) : list string :=
  match t with
  | [] => []
  | Popen c :: t' => c :: spawned t'
  | _ :: t' => spawned t'
  end.

(** The directories [os.makedirs] was called on, in order. *)
Fixpoint made_dirs (t : list event) : list string :=
  match t with
  | [] => []
  | Makedirs d :: t' => d :: made_dirs t'
  | _ :: t' => made_dirs t'
  end.

(** ** Object operations that can raise *)

(** [o[k]] for a [str] key [k]. *)
Definition getitem (o : obj) (k : string) : M obj :=
  match o with
  | PyDict d =>
      match dict_get k d with
      | Some v => ret v
      | None => raise (KeyError k)
      end
  | _ => raise TypeError
  end.

(** [o.startswith(p)]: only a [str] has the method. *)
Definition startswith (o : obj) (p : string) : M bool :=
  match o with
  | PyStr s => ret (String.prefix p s)
  | _ => raise AttributeError
  end.

(** [o.get(k, default)]: only a dictionary has the method. *)
Definition get_default (o : obj) (k : string) (default : obj) : M obj :=
  match o with
  | PyDict d =>
      match dict_get k d with
      | Some v => ret v
      | None => ret default
      end
  | _ => raise AttributeError
  end.

(** [template.format( **attributes )] for a template whose replacement
    fields are plain names, as the two command templates are: each [{name}]
    is replaced by [str(attributes[name])], left to right. *)
Fixpoint format_from (field : option (list ascii)) (template : string)
                     (attributes : dict) : M string :=
  match template with
  | EmptyString =>
      match field with
      | None => ret ""
      | Some _ => raise ValueError
      end
  | String c t' =>
      match field with
      | None =>
          if Ascii.eqb c "{" then format_from (Some []) t' attributes
          else if Ascii.eqb c "}" then raise ValueError
          else rest <- format_from None t' attributes ;; ret (String c rest)
      | Some name =>
          if Ascii.eqb c "}" then
            v <- getitem (PyDict attributes) (string_of_list_ascii (rev name)) ;;
            rest <- format_from None t' attributes ;;
            ret (str v ++ rest)
          else format_from (Some (c :: name)) t' attributes
      end
  end.

Definition format (template : string) (attributes : dict) : M string :=
  format_from None template attributes.

(** ** The operating system *)

(** What the scripts ask of the system they run on: [os.path.abspath]
    (which reads the working directory), the outcome of [os.makedirs]
    ([None]: the directory was created; [Some n]: [OSError] with
    [errno = n]), and the text a shell command writes to its standard
    output and error before it exits. *)
Record world : Type := {
  abspath : string -> string;
  makedirs : string -> option Z;
  communicate : string -> Py.bytes
}.

Definition EEXIST : Z := 17.

Definition is_slash (c : ascii) : bool := Ascii.eqb c "/".

Fixpoint drop_while (p : ascii -> bool) (l : list ascii) : list ascii :=
  match l with
  | c :: l' => if p c then drop_while p l' else l
  | [] => []
  end.

(** [os.path.dirname(p)]: [p] up to its last slash, without the trailing
    slashes unless there is nothing else. *)
Definition dirname (p : string) : string :=
  let head := drop_while (fun c => negb (is_slash c)) (rev (list_ascii_of_string p)) in
  if forallb is_slash head then string_of_list_ascii (rev head)
  else string_of_list_ascii (rev (drop_while is_slash head)).

Definition os_makedirs (w : world) (directory : string) : M unit :=
  emit (Makedirs directory) ;;
  match makedirs w directory with
  | None => ret tt
  | Some n => raise (OSError n)
  end.

(** [make_dir]: make directory unless existing; ignore the error in the
    latter case. *)
Definition make_dir (w : world) (directory : string) : M unit :=
  try_except (os_makedirs w directory)
    (fun exception =>
       match exception with
       | OSError errno => if errno =? EEXIST then ret tt else raise exception
       | _ => raise exception
       end).

(** ** [SnakeJob] *)

(** What [read_job_properties] returns for a generated script. *)
Record job_properties : Type := {
  jp_rule : string;
  jp_input : list string;
  jp_output : list string
}.

Record SnakeJob : Type := {
  scriptname : string;
  rule : string;
  ifiles : list string;
  ofiles : list string;
  dependencies : option (list obj);
  config : dict
}.

(** [SnakeJob.__init__], given the properties read from [snakebashfile]. *)
Definition SnakeJob_init (snakebashfile : string) (props : job_properties)
    (deps : option (list obj)) (conf : dict) : SnakeJob :=
  {| scriptname := snakebashfile;
     rule := jp_rule props;
     ifiles := jp_input props;
     ofiles := jp_output props;
     dependencies :=
       match deps with
       | None => None
       | Some l => if (length l <? 1)%nat then None else Some l
       end;
     config := conf |}.

(** Lines 61-63 of [schedule]: create the output directory, so the
    scheduler's output can go there. *)
Definition ensure_output_directory (w : world) (self : SnakeJob) : M unit :=
  match ofiles self with
  | first :: _ => make_dir w (dirname (abspath w first))
  | [] => ret tt
  end.

(** Lines 65-76 and the [else] branch of [schedule]: the resource
    configuration of the job's rule, following a reference to another
    scheduling rule. *)
Definition rule_conf (self : SnakeJob) : M obj :=
  let schedule_rule := "schedule_" ++ rule self in
  if dict_in schedule_rule (config self) then
    rule_conf <- getitem (PyDict (config self)) schedule_rule ;;
    try_except
      (redirect <- startswith rule_conf "schedule_" ;;
       if redirect : bool then getitem (PyDict (config self)) (str rule_conf)
       else ret rule_conf)
      (fun e =>
         match e with
         | KeyError _ =>
             raise (UndefinedJobRule ("No schedule config found for " ++ str rule_conf))
         | AttributeError => ret rule_conf
         | _ => raise e
         end)
  else
    raise (UndefinedJobRule ("No schedule config found for schedule_" ++ rule self)).

(** [self.ofiles[0] + suffix if len(self.ofiles) > 0 else fallback]. *)
Definition output_file_name (self : SnakeJob) (suffix fallback : string) : string :=
  match ofiles self with
  | first :: _ => first ++ suffix
  | [] => fallback
  end.

(** [subprocess.Popen(cmd, stdout=PIPE, stderr=STDOUT, shell=True).communicate()[0]]. *)
Definition popen (w : world) (cmd : string) : M Py.bytes :=
  emit (Popen cmd) ;; ret (communicate w cmd).

(** The [try]/[except ValueError] that ends [schedule], for the token
    [popenrv[0].split()[...]] picked by the backend ([None]: the index is
    out of range). *)
Definition print_job_id (out : Py.bytes) (token : option Py.bytes) : M unit :=
  match token with
  | None => raise IndexError
  | Some tok =>
      match Py.int tok with
      | Some n => emit (Stdout (Py.str_of_int n))
      | None =>
          emit (Stdout ("Not a submitted job: " ++ Py.repr_bytes out)) ;;
          raise (SystemExit 2)
      end
  end.

(** The [__main__] block around [sj.schedule()]: the exit status of the
    process, after the message of an [UndefinedJobRule] went to
    [sys.stderr]. *)
Definition run_main (schedule : M unit) : list event * Z :=
  match schedule with
  | (t, inr _) => (t, 0)
  | (t, inl (UndefinedJobRule msg)) => ((t ++ [Stderr msg])%list, 2)
  | (t, inl (SystemExit code)) => (t, code)
  | (t, inl e) => ((t ++ [Traceback e])%list, 1)
  end.

(** ** The grid-engine adapter, [Snakefile_qsub.py] *)

Module Qsub.

Record SnakeJobQsub : Type := {
  job :> SnakeJob;
  dep_str : string
}.

(** [SnakeJobQsub.__init__]. *)
Definition init (snakebashfile : string) (props : job_properties)
    (deps : option (list obj)) (conf : dict) : SnakeJobQsub :=
  let base := SnakeJob_init snakebashfile props deps conf in
  {| job := base;
     dep_str :=
       match dependencies base with
       | None => ""
       | Some ds => "-hold_jid " ++ String.concat "," (map str ds)
       end |}.

Definition attributes (self : SnakeJobQsub) (rule_conf : obj) : M dict :=
  qsub_general <- getitem (PyDict (config self)) "qsub_general" ;;
  qsub_job_path <- getitem qsub_general "wrapper_script" ;;
  queue <- getitem rule_conf "queue" ;;
  threads <- getitem rule_conf "threads" ;;
  extra_parameters <- get_default rule_conf "extra_parameters" (PyStr "") ;;
  ret [ ("dep_str", PyStr (dep_str self));
        ("job_name", PyStr ("snakemake_" ++ rule self));
        ("qsub_job_path", qsub_job_path);
        ("script_name", PyStr (scriptname self));
        ("queue", queue);
        ("threads", threads);
        ("log_file", PyStr (output_file_name self "-qsub.out"
                              ("snakemake-" ++ rule self ++ "-qsub.out")));
        ("err_file", PyStr (output_file_name self "-qsub.err"
                              ("snakemake-" ++ rule self ++ "-qsub.err")));
        ("extra_parameters", extra_parameters) ].

(** The command template.  A backslash ends each of the first two lines of
    the source literal, so the lines are joined without a line break and
    the twenty spaces that indent the second and the third stay. *)
Definition template : string :=
  "qsub -o {log_file} -e {err_file} {dep_str} -q {queue} -pe smp {threads}                     -N {job_name} {extra_parameters} {qsub_job_path}                     '{script_name}'".

(** Lines 65-93: the submission command, or the exception that ends the
    run before anything is submitted. *)
Definition qsub_cmd (self : SnakeJobQsub) : M string :=
  rule_conf <- rule_conf self ;;
  attributes <- attributes self rule_conf ;;
  format template attributes.

(** [popenrv[0].split()[2]]. *)
Definition job_id_token (out : Py.bytes) : option Py.bytes :=
  Py.index (Py.split out) 2.

(** [SnakeJobQsub.schedule]. *)
Definition schedule (w : world) (self : SnakeJobQsub) : M unit :=
  ensure_output_directory w self ;;
  qsub_cmd <- qsub_cmd self ;;
  emit (Stderr qsub_cmd) ;;
  out <- popen w qsub_cmd ;;
  print_job_id out (job_id_token out).

(** The script run on parsed arguments, with the properties of
    [snakescript] and the content of [config_qsub.json]. *)
Definition main (w : world) (dependencies : list string) (snakescript : string)
    (props : job_properties) (conf : dict) : list event * Z :=
  let sj := init snakescript props (Some (map PyStr dependencies)) conf in
  run_main (schedule w sj).

End Qsub.

(** ** The Slurm adapter, [Snakefile_sbatch.py] *)

Module Sbatch.

Record SnakeJobSbatch : Type := {
  job :> SnakeJob;
  dep_str : string
}.

(** [SnakeJobSbatch.__init__]. *)
Definition init (snakebashfile : string) (props : job_properties)
    (deps : option (list obj)) (conf : dict) : SnakeJobSbatch :=
  let base := SnakeJob_init snakebashfile props deps conf in
  {| job := base;
     dep_str :=
       match dependencies base with
       | None => ""
       | Some ds =>
           "-d " ++ String.concat "," (map (fun d => "afterok:" ++ str d) ds)
       end |}.

Definition attributes (self : SnakeJobSbatch) (rule_conf : obj) : M dict :=
  sbatch_general <- getitem (PyDict (config self)) "sbatch_general" ;;
  sbatch_job_path <- getitem sbatch_general "wrapper_script" ;;
  days <- getitem rule_conf "days" ;;
  hours <- getitem rule_conf "hours" ;;
  minutes <- getitem rule_conf "minutes" ;;
  partition <- getitem rule_conf "partition" ;;
  cores <- getitem rule_conf "cores" ;;
  sbatch_general' <- getitem (PyDict (config self)) "sbatch_general" ;;
  account <- getitem sbatch_general' "account" ;;
  extra_parameters <- get_default rule_conf "extra_parameters" (PyStr "") ;;
  ret [ ("dep_str", PyStr (dep_str self));
        ("job_name", PyStr ("snakemake_" ++ rule self));
        ("sbatch_job_path", sbatch_job_path);
        ("script_name", PyStr (scriptname self));
        ("days", days);
        ("hours", hours);
        ("minutes", minutes);
        ("partition", partition);
        ("cores", cores);
        ("account", account);
        ("log_file", PyStr (output_file_name self "-slurm.out"
                              ("snakemake-" ++ rule self ++ "-slurm.out")));
        ("extra_parameters", extra_parameters) ].

(** The command template.  A backslash ends each of the first two lines of
    the source literal, so the lines are joined without a line break and
    the twenty spaces that indent the second and the third stay. *)
Definition template : string :=
  "sbatch --output={log_file} {dep_str} -A {account} -p {partition} -n {cores} -t {days}-{hours}:{minutes}:00                     -J {job_name} {extra_parameters} {sbatch_job_path}                     '{script_name}'".

(** Lines 65-96: the submission command, or the exception that ends the
    run before anything is submitted. *)
Definition sbatch_cmd (self : SnakeJobSbatch) : M string :=
  rule_conf <- rule_conf self ;;
  attributes <- attributes self rule_conf ;;
  format template attributes.

(** [popenrv[0].split()[-1]]. *)
Definition job_id_token (out : Py.bytes) : option Py.bytes :=
  Py.index_last (Py.split out).

(** [SnakeJobSbatch.schedule]. *)
Definition schedule (w : world) (self : SnakeJobSbatch) : M unit :=
  ensure_output_directory w self ;;
  sbatch_cmd <- sbatch_cmd self ;;
  emit (Stderr sbatch_cmd) ;;
  out <- popen w sbatch_cmd ;;
  print_job_id out (job_id_token out).

(** The script run on parsed arguments, with the properties of
    [snakescript] and the content of [config_sbatch.json]. *)
Definition main (w : world) (dependencies : list string) (snakescript : string)
    (props : job_properties) (conf : dict) : list event * Z :=
  let sj := init snakescript props (Some (map PyStr dependencies)) conf in
  run_main (schedule w sj).

End Sbatch.

(** ** The two adapters side by side *)

Inductive backend : Type := GridEngine | Slurm.

(** The base job of either adapter. *)
Definition job_of (script : string) (props : job_properties)
    (deps : option (list obj)) (conf : dict) : SnakeJob :=
  SnakeJob_init script props deps conf.

(** The dependency option string [__init__] computes. *)
Definition dep_str (b : backend) (script : string) (props : job_properties)
    (deps : option (list obj)) (conf : dict) : string :=
  match b with
  | GridEngine => Qsub.dep_str (Qsub.init script props deps conf)
  | Slurm => Sbatch.dep_str (Sbatch.init script props deps conf)
  end.

(** The submission command of a freshly constructed job. *)
Definition command (b : backend) (script : string) (props : job_properties)
    (deps : option (list obj)) (conf : dict) : M string :=
  match b with
  | GridEngine => Qsub.qsub_cmd (Qsub.init script props deps conf)
  | Slurm => Sbatch.sbatch_cmd (Sbatch.init script props deps conf)
  end.

(** [schedule()] on a freshly constructed job. *)
Definition schedule (b : backend) (w : world) (script : string)
    (props : job_properties) (deps : option (list obj)) (conf : dict) : M unit :=
  match b with
  | GridEngine => Qsub.schedule w (Qsub.init script props deps conf)
  | Slurm => Sbatch.schedule w (Sbatch.init script props deps conf)
  end.

(** The token of the captured text the adapter converts. *)
Definition job_id_token (b : backend) (out : Py.bytes) : option Py.bytes :=
  match b with
  | GridEngine => Qsub.job_id_token out
  | Slurm => Sbatch.job_id_token out
  end.

(** The name tag of the adapter in its log file names. *)
Definition tag (b : backend) : string :=
  match b with
  | GridEngine => "qsub"
  | Slurm => "slurm"
  end.

(** ** Vocabulary of the specification *)

(** A whitespace-delimited token: not empty, no whitespace inside. *)
Definition is_token (t : string) : Prop :=
  t <> "" /\ forallb (fun c => negb (Py.isspace c)) (list_ascii_of_string t) = true.

(** [tok] is the token the specification names for the backend: the third
    one for the grid engine, the last one for Slurm. *)
Definition selected (b : backend) (tokens : list Py.bytes) (tok : Py.bytes) : Prop :=
  match b with
  | GridEngine => exists t1 t2 rest, tokens = t1 :: t2 :: tok :: rest
  | Slurm => exists front, tokens = (front ++ [tok])%list
  end.

(** The text has fewer tokens than the backend's position needs. *)
Definition too_few_tokens (b : backend) (tokens : list Py.bytes) : Prop :=
  match b with
  | GridEngine => (length tokens < 3)%nat
  | Slurm => tokens = []
  end.

(** The option that introduces the dependency list, and the way one id is
    written in it. *)
Definition dep_option (b : backend) : string :=
  match b with
  | GridEngine => "-hold_jid "
  | Slurm => "-d "
  end.

Definition dep_item (b : backend) (d : obj) : string :=
  match b with
  | GridEngine => str d
  | Slurm => "afterok:" ++ str d
  end.

(** A text without whitespace. *)
Definition no_space (s : string) : bool :=
  forallb (fun c => negb (Py.isspace c)) (list_ascii_of_string s).

(** The file name the specification gives for the log ([ext] is [.out])
    or error ([.err]) file of a job. *)
Definition spec_file_name (b : backend) (props : job_properties) (ext : string) : string :=
  match jp_output props with
  | first :: _ => first ++ "-" ++ tag b ++ ext
  | [] => "snakemake-" ++ jp_rule props ++ "-" ++ tag b ++ ext
  end.

(** A run submitted exactly the command [cmd]. *)
Definition submitted {A} (run : M A) (cmd : string) : Prop :=
  spawned (trace run) = [cmd].

(** A computation without effects. *)
Definition pure {A} (m : M A) : Prop := trace m = [].

(** Lines 96-105 (99-108 in the Slurm adapter): echo the command, run it,
    report the job id. *)
Definition report (w : world) (b : backend) (cmd : string) : M unit :=
  emit (Stderr cmd) ;;
  out <- popen w cmd ;;
  print_job_id out (job_id_token b out).

(** The first step of [schedule] on a freshly constructed job. *)
Definition directory_step (w : world) (script : string) (props : job_properties)
    (deps : option (list obj)) (conf : dict) : M unit :=
  ensure_output_directory w (job_of script props deps conf).

Definition newline : string := String "010" "".

Definition dquote : string := String "034" "".

(** The twenty spaces that indent the continuation lines of the command
    templates. *)
Definition indent : string := "                    ".

(** The key of the backend-wide section of the configuration. *)
Definition general_key (b : backend) : string :=
  match b with
  | GridEngine => "qsub_general"
  | Slurm => "sbatch_general"
  end.

(** The fields [schedule] reads from the resolved record with
    [rule_conf[...]], in the order it reads them. *)
Definition required_fields (b : backend) : list string :=
  match b with
  | GridEngine => ["queue"; "threads"]
  | Slurm => ["days"; "hours"; "minutes"; "partition"; "cores"]
  end.

(** [rule_conf.get('extra_parameters', "")] for a record. *)
Definition extra_parameters_of (record : dict) : obj :=
  match dict_get "extra_parameters" record with
  | Some v => v
  | None => PyStr ""
  end.

(** The characters of a decimal numeral: digits and the minus sign. *)
Definition numeral_char (c : ascii) : bool :=
  match Py.digit_value c with
  | Some _ => true
  | None => Ascii.eqb c "-"
  end.

(** The bytes Python writes without a hexadecimal escape and without
    changing the quote of the literal: printable ASCII other than the single
    quote, and tab, line feed and carriage return. *)
Definition text_char (c : ascii) : bool :=
  let n := nat_of_ascii c in
  ((32 <=? n) && (n <? 127) && negb (n =? 39))%nat
  || (n =? 9)%nat || (n =? 10)%nat || (n =? 13)%nat.

(** How such a byte is written inside a bytes literal: a backslash and
    [t], [n] or [r] for tab, line feed and carriage return, two backslashes
    for a backslash, and the byte itself otherwise. *)
Definition literal_escape (c : ascii) : string :=
  let n := nat_of_ascii c in
  if (n =? 9)%nat then "\t"
  else if (n =? 10)%nat then "\n"
  else if (n =? 13)%nat then "\r"
  else if (n =? 92)%nat then "\\"
  else String c "".

Fixpoint literal_body (s : string) : string :=
  match s with
  | EmptyString => ""
  | String c s' => literal_escape c ++ literal_body s'
  end.

(** The bytes literal of a text of such bytes: [b'...']. *)
Definition bytes_literal (s : string) : string := "b'" ++ literal_body s ++ "'".

(** ** Sample runs *)

Module Sample.

(** A job of rule [map] with one output file, and one without outputs. *)
Definition props : job_properties :=
  {| jp_rule := "map"; jp_input := ["reads.fq"]; jp_output := ["out/a.bam"] |}.


(** [config_qsub.json]: rule [map] borrows the resources of [schedule_big]. *)
Definition conf_qsub : dict :=
  [ ("qsub_general", PyDict [("wrapper_script", PyStr "wrap.sh")]);
    ("schedule_map", PyStr "schedule_big");
    ("schedule_big", PyDict [("queue", PyStr "all.q"); ("threads", PyInt 4)]) ].

(** [config_sbatch.json] with a record for rule [map]. *)
Definition conf_sbatch : dict :=
  [ ("sbatch_general",
     PyDict [("wrapper_script", PyStr "wrap.sh"); ("account", PyStr "b2010")]);
    ("schedule_map",
     PyDict [("days", PyInt 0); ("hours", PyInt 1); ("minutes", PyInt 30);
             ("partition", PyStr "core"); ("cores", PyInt 1);
             ("extra_parameters", PyStr "-C fat")]) ].

Definition conf_of (b : backend) : dict :=
  match b with
  | GridEngine => conf_qsub
  | Slurm => conf_sbatch
  end.

(** A configuration without an entry for rule [map]. *)
Definition conf_no_rule : dict :=
  [ ("qsub_general", PyDict [("wrapper_script", PyStr "wrap.sh")]);
    ("sbatch_general",
     PyDict [("wrapper_script", PyStr "wrap.sh"); ("account", PyStr "b2010")]) ].

(** A configuration whose entry for rule [map] points nowhere. *)
Definition conf_dangling : dict :=
  [ ("qsub_general", PyDict [("wrapper_script", PyStr "wrap.sh")]);
    ("schedule_map", PyStr "schedule_gone") ].

Definition in_work (p : string) : string := "/work/" ++ p.

(** The scheduler accepts the job. *)
Definition accepting : world :=
  {| abspath := in_work;
     makedirs := fun _ => None;
     communicate := fun cmd =>
       if String.prefix "qsub" cmd
       then "Your job 12345 (" ++ dquote ++ "snakemake_map" ++ dquote
            ++ ") has been submitted" ++ newline
       else "Submitted batch job 98765" ++ newline |}.

(** The scheduler refuses the job. *)
Definition rejecting : world :=
  {| abspath := in_work;
     makedirs := fun _ => Some EEXIST;
     communicate := fun cmd =>
       if String.prefix "qsub" cmd
       then "Unable to run job: denied" ++ newline
       else "sbatch: error: Batch job submission failed" ++ newline |}.

(** The submission tool writes nothing, or too little. *)
Definition silent : world :=
  {| abspath := in_work;
     makedirs := fun _ => None;
     communicate := fun cmd =>
       if String.prefix "qsub" cmd then "qsub: error" ++ newline else "" |}.

(** The output directory cannot be created: permission denied. *)
Definition EACCES : Z := 13.

Definition read_only : world :=
  {| abspath := in_work;
     makedirs := fun _ => Some EACCES;
     communicate := communicate accepting |}.

Definition script : string := "snakejob.map.1.sh".

(** Two dependency ids, as the [int]s of the specification's example. *)
Definition deps : option (list obj) := Some [PyInt 5; PyInt 7].

(** The command the adapter builds for the sample job. *)
Definition cmd (b : backend) : string :=
  match result (command b script props deps (conf_of b)) with
  | inr c => c
  | inl _ => ""
  end.

End Sample.

(** ** Facts about text *)

Lemma append_nil_r (s : string) : s ++ "" = s.
Proof. induction s as [|c s IH]; simpl; [reflexivity | now rewrite IH]. Qed.

Lemma append_assoc (s t u : string) : (s ++ t) ++ u = s ++ (t ++ u).
Proof. induction s as [|c s IH]; simpl; [reflexivity | now rewrite IH]. Qed.

Lemma append_inj_l (p s t : string) : p ++ s = p ++ t -> s = t.
Proof. induction p as [|c p IH]; simpl; [auto | intros [= H]; auto]. Qed.

(** ** Indexing and tokens *)

Lemma index_third {A} (l : list A) (x : A) :
  Py.index l 2 = Some x <-> exists t1 t2 rest, l = t1 :: t2 :: x :: rest.
Proof.
  unfold Py.index. split.
  - destruct l as [|a [|b [|c l]]]; simpl; try discriminate.
    intros [= ->]. now exists a, b, l.
  - intros (t1 & t2 & rest & ->). reflexivity.
Qed.

Lemma index_third_none {A} (l : list A) :
  Py.index l 2 = None <-> (length l < 3)%nat.
Proof.
  unfold Py.index. rewrite nth_error_None. lia.
Qed.

Lemma index_last_app {A} (front : list A) (x : A) :
  Py.index_last (front ++ [x]) = Some x.
Proof.
  induction front as [|a front IH]; [reflexivity|].
  simpl. destruct (front ++ [x])%list eqn:E; [|exact IH].
  now destruct front.
Qed.

Lemma index_last_some {A} (l : list A) (x : A) :
  Py.index_last l = Some x <-> exists front, l = (front ++ [x])%list.
Proof.
  split.
  - induction l as [|a l IH]; [discriminate|].
    destruct l as [|b l].
    + intros [= ->]. now exists [].
    + intros H. destruct (IH H) as [front ->]. now exists (a :: front).
  - intros [front ->]. apply index_last_app.
Qed.

Lemma index_last_none {A} (l : list A) :
  Py.index_last l = None <-> l = [].
Proof.
  split; [|now intros ->].
  induction l as [|a l IH]; [reflexivity|].
  destruct l as [|b l]; [discriminate|].
  intros H. now specialize (IH H).
Qed.

Lemma job_id_token_selected (b : backend) (out tok : Py.bytes) :
  job_id_token b out = Some tok <-> selected b (Py.split out) tok.
Proof.
  destruct b; [apply index_third | apply index_last_some].
Qed.

Lemma job_id_token_too_few (b : backend) (out : Py.bytes) :
  job_id_token b out = None <-> too_few_tokens b (Py.split out).
Proof.
  destruct b; [apply index_third_none | apply index_last_none].
Qed.

Lemma forallb_rev_true {A} (p : A -> bool) (l : list A) :
  forallb p l = true -> forallb p (rev l) = true.
Proof.
  rewrite !forallb_forall. intros H x Hx. apply H. now apply in_rev.
Qed.

(** [split] yields tokens: every element is non-empty and free of
    whitespace. *)

Lemma split_from_tokens (s : string) (tok : list ascii) :
  forallb (fun c => negb (Py.isspace c)) tok = true ->
  Forall is_token (Py.split_from tok s).
Proof.
  assert (Hflush : forall tok, forallb (fun c => negb (Py.isspace c)) tok = true ->
                               Forall is_token (Py.flush tok)).
  { intros [|c l] H; [constructor|].
    constructor; [|constructor]. split.
    - intros E. apply (f_equal list_ascii_of_string) in E.
      rewrite list_ascii_of_string_of_list_ascii in E.
      apply (f_equal (@length ascii)) in E. rewrite length_rev in E. discriminate.
    - rewrite list_ascii_of_string_of_list_ascii. now apply forallb_rev_true. }
  revert tok. induction s as [|c s IH]; intros tok H; simpl.
  - now apply Hflush.
  - destruct (Py.isspace c) eqn:Ec.
    + apply Forall_app. split; [now apply Hflush | now apply IH].
    + apply IH. simpl. now rewrite Ec.
Qed.

Lemma split_tokens (s : Py.bytes) : Forall is_token (Py.split s).
Proof. now apply split_from_tokens. Qed.

(** Reading a token character by character. *)
Lemma split_from_token (t : list ascii) (acc : list ascii) (s : string) :
  forallb (fun c => negb (Py.isspace c)) t = true ->
  Py.split_from acc (string_of_list_ascii t ++ s) = Py.split_from (rev t ++ acc) s.
Proof.
  revert acc. induction t as [|c t IH]; intros acc H; [reflexivity|].
  simpl in H. apply andb_true_iff in H as [Hc Ht].
  simpl. apply negb_true_iff in Hc. rewrite Hc, (IH _ Ht).
  now rewrite <- app_assoc.
Qed.

(** Tokens written with single spaces between them are read back. *)
Lemma split_join (tokens : list string) :
  Forall is_token tokens -> Py.split (String.concat " " tokens) = tokens.
Proof.
  assert (Hone : forall t s, is_token t ->
            Py.split_from [] (t ++ s) =
            Py.split_from (rev (list_ascii_of_string t)) s).
  { intros t s [_ Ht].
    rewrite <- (string_of_list_ascii_of_string t) at 1.
    rewrite split_from_token by exact Ht. now rewrite app_nil_r. }
  assert (Hflush : forall t, is_token t ->
            Py.flush (rev (list_ascii_of_string t)) = [t]).
  { intros t [Hne _]. unfold Py.flush.
    destruct (rev (list_ascii_of_string t)) eqn:E.
    - apply (f_equal (@rev ascii)) in E. rewrite rev_involutive in E. simpl in E.
      apply (f_equal string_of_list_ascii) in E.
      rewrite string_of_list_ascii_of_string in E. contradiction.
    - rewrite <- E, rev_involutive, string_of_list_ascii_of_string. reflexivity. }
  unfold Py.split. induction 1 as [|t l Ht Hl IH]; [reflexivity|].
  destruct l as [|t' l].
  - simpl. rewrite <- (append_nil_r t) at 1.
    rewrite Hone by exact Ht. simpl. now apply Hflush.
  - change (String.concat " " (t :: t' :: l))
      with (t ++ String " " (String.concat " " (t' :: l))).
    rewrite Hone by exact Ht.
    remember (String.concat " " (t' :: l)) as tail eqn:Etail.
    simpl. rewrite (Hflush t Ht), IH. reflexivity.
Qed.

(** ** Computations without effects *)

Create HintDb pure.

Lemma pure_ret {A} (x : A) : pure (ret x).
Proof. reflexivity. Qed.

Lemma pure_raise {A} (e : exn) : pure (@raise A e).
Proof. reflexivity. Qed.

Lemma pure_bind {A B} (m : M A) (f : A -> M B) :
  pure m -> (forall x, pure (f x)) -> pure (bind m f).
Proof.
  unfold pure, trace, bind. destruct m as [t [e|x]]; simpl; intros -> Hf; [reflexivity|].
  specialize (Hf x). destruct (f x) as [t' r]. exact Hf.
Qed.

Lemma pure_try_except {A} (m : M A) (h : exn -> M A) :
  pure m -> (forall e, pure (h e)) -> pure (try_except m h).
Proof.
  unfold pure, trace, try_except. destruct m as [t [e|x]]; simpl; intros -> Hh; [|reflexivity].
  specialize (Hh e). destruct (h e) as [t' r]. exact Hh.
Qed.

Lemma pure_getitem (o : obj) (k : string) : pure (getitem o k).
Proof. destruct o; try reflexivity. simpl. now destruct (dict_get k d). Qed.

Lemma pure_startswith (o : obj) (p : string) : pure (startswith o p).
Proof. now destruct o. Qed.

Lemma pure_get_default (o : obj) (k : string) (v : obj) : pure (get_default o k v).
Proof. destruct o; try reflexivity. simpl. now destruct (dict_get k d). Qed.

#[local] Hint Resolve pure_ret pure_raise pure_getitem pure_startswith
  pure_get_default : pure.

Ltac pure_steps :=
  repeat first
    [ apply pure_bind; [|intro]
    | apply pure_try_except; [|intro]
    | solve [auto with pure]
    | match goal with
      | |- pure (if ?c then _ else _) => destruct c
      | |- pure (match ?e with _ => _ end) => destruct e
      end ].

Lemma pure_format_from (template : string) (attrs : dict) (field : option (list ascii)) :
  pure (format_from field template attrs).
Proof.
  revert field. induction template as [|c t IH]; intros field; simpl.
  - now destruct field.
  - destruct field as [name|].
    + destruct (Ascii.eqb c "}"); [|apply IH].
      apply pure_bind; [apply (pure_getitem (PyDict attrs))|intro].
      apply pure_bind; [apply IH | intro; apply pure_ret].
    + destruct (Ascii.eqb c "{"); [apply IH|].
      destruct (Ascii.eqb c "}"); [apply pure_raise|].
      apply pure_bind; [apply IH | intro; apply pure_ret].
Qed.

Lemma pure_rule_conf (self : SnakeJob) : pure (rule_conf self).
Proof. unfold rule_conf. pure_steps. Qed.

Lemma pure_command (b : backend) script props deps conf :
  pure (command b script props deps conf).
Proof.
  destruct b; unfold command, Qsub.qsub_cmd, Sbatch.sbatch_cmd.
  - apply pure_bind; [apply pure_rule_conf|intro].
    apply pure_bind; [unfold Qsub.attributes; pure_steps | intro; apply pure_format_from].
  - apply pure_bind; [apply pure_rule_conf|intro].
    apply pure_bind; [unfold Sbatch.attributes; pure_steps | intro; apply pure_format_from].
Qed.

(** ** The shape of a run of [schedule] *)

Lemma schedule_pipeline (b : backend) w script props deps conf :
  schedule b w script props deps conf =
  (ensure_output_directory w (job_of script props deps conf) ;;
   cmd <- command b script props deps conf ;;
   report w b cmd).
Proof. destruct b; reflexivity. Qed.

Lemma ensure_output_directory_eq (w : world) (self : SnakeJob) :
  ensure_output_directory w self =
  match ofiles self with
  | [] => ([], inr tt)
  | first :: _ =>
      let d := dirname (abspath w first) in
      ([Makedirs d],
       match makedirs w d with
       | None => inr tt
       | Some n => if n =? EEXIST then inr tt else inl (OSError n)
       end)
  end.
Proof.
  unfold ensure_output_directory. destruct (ofiles self) as [|first rest]; [reflexivity|].
  unfold make_dir, os_makedirs, try_except, bind, emit. simpl.
  destruct (makedirs w _) as [n|]; simpl; [|reflexivity].
  now destruct (n =? EEXIST).
Qed.

Lemma ensure_output_directory_spawns_nothing (w : world) (self : SnakeJob) :
  spawned (trace (ensure_output_directory w self)) = [] /\
  stdout_of (trace (ensure_output_directory w self)) = "" /\
  stderr_of (trace (ensure_output_directory w self)) = [].
Proof.
  rewrite ensure_output_directory_eq. now destruct (ofiles self).
Qed.

Lemma report_eq (w : world) (b : backend) (cmd : string) :
  report w b cmd =
  (Stderr cmd :: Popen cmd ::
     trace (print_job_id (communicate w cmd) (job_id_token b (communicate w cmd))),
   result (print_job_id (communicate w cmd) (job_id_token b (communicate w cmd)))).
Proof.
  unfold report, popen, bind, emit, ret. simpl.
  now destruct (print_job_id _ _).
Qed.

Section Run.

Variables (b : backend) (w : world) (script : string) (props : job_properties)
          (deps : option (list obj)) (conf : dict).

Local Abbreviation run := (schedule b w script props deps conf).
Local Abbreviation dir := (directory_step w script props deps conf).
Local Abbreviation cmd_of := (command b script props deps conf).

(** The directory step raised: nothing else happened. *)
Lemma schedule_directory_raises (e : exn) :
  result dir = inl e -> run = (trace dir, inl e).
Proof.
  unfold directory_step. rewrite schedule_pipeline.
  destruct (ensure_output_directory _ _) as [t [e'|u]]; simpl; [|discriminate].
  now intros [= ->].
Qed.

(** The command could not be built: nothing was echoed or submitted. *)
Lemma schedule_command_raises (e : exn) :
  result dir = inr tt -> result cmd_of = inl e -> run = (trace dir, inl e).
Proof.
  unfold directory_step. rewrite schedule_pipeline.
  pose proof (pure_command b script props deps conf) as Hp.
  destruct (ensure_output_directory _ _) as [t [e'|u]]; simpl; [discriminate|].
  intros _. destruct (command _ _ _ _ _) as [t' [e'|c]]; simpl; [|discriminate].
  unfold pure in Hp. simpl in Hp. subst t'. intros [= ->]. now rewrite app_nil_r.
Qed.

(** The command was built: it is echoed, run, and its output reported. *)
Lemma schedule_submits (cmd : string) :
  result dir = inr tt -> result cmd_of = inr cmd ->
  run = ((trace dir ++ trace (report w b cmd))%list, result (report w b cmd)).
Proof.
  unfold directory_step. rewrite schedule_pipeline.
  pose proof (pure_command b script props deps conf) as Hp.
  destruct (ensure_output_directory _ _) as [t [e'|u]]; simpl; [discriminate|].
  intros _. destruct (command _ _ _ _ _) as [t' [e'|c]]; simpl; [discriminate|].
  unfold pure in Hp. simpl in Hp. subst t'. intros [= ->].
  now destruct (report w b cmd).
Qed.

(** A run that submitted [cmd] passed the directory step and built [cmd]. *)
Lemma submitted_inv (cmd : string) :
  submitted run cmd -> result dir = inr tt /\ result cmd_of = inr cmd.
Proof.
  unfold submitted. intros H.
  destruct (ensure_output_directory_spawns_nothing w (job_of script props deps conf))
    as (Hs & _ & _). fold (directory_step w script props deps conf) in Hs.
  assert (Happ : forall t t', spawned (t ++ t') = (spawned t ++ spawned t')%list).
  { induction t as [|[] t IH]; intros; simpl; now rewrite ?IH. }
  destruct (result dir) as [e|[]] eqn:Ed.
  { rewrite (schedule_directory_raises e Ed) in H. simpl in H. congruence. }
  destruct (result cmd_of) as [e|c] eqn:Ec.
  { rewrite (schedule_command_raises e Ed Ec) in H. simpl in H. congruence. }
  split; [reflexivity|].
  rewrite (schedule_submits c Ed Ec), report_eq in H. simpl in H.
  rewrite Happ, Hs in H. simpl in H.
  now injection H as ->.
Qed.

End Run.

(** ** Decimal numerals *)

Lemma string_of_uint_numeral (d : Decimal.uint) :
  forallb numeral_char (list_ascii_of_string (NilEmpty.string_of_uint d)) = true.
Proof. induction d; simpl; auto. Qed.

Lemma str_of_int_numeral (n : Z) :
  forallb numeral_char (list_ascii_of_string (Py.str_of_int n)) = true.
Proof.
  unfold Py.str_of_int, NilZero.string_of_int, NilZero.string_of_uint.
  destruct (Z.to_int n) as [d|d]; destruct d; simpl;
    auto using string_of_uint_numeral.
Qed.

(** A numeral is never the diagnostic of the adapters. *)
Lemma str_of_int_not_diagnostic (n : Z) (rest : string) :
  Py.str_of_int n <> "Not a submitted job: " ++ rest.
Proof.
  intros E. pose proof (str_of_int_numeral n) as H.
  rewrite E in H. discriminate.
Qed.

(** The numeral [str_of_int] writes is read back by [int]. *)

Lemma scan_digits_digit (c : ascii) (d acc : Z) (s : string) :
  Py.is_underscore c = false -> Py.digit_value c = Some d ->
  Py.scan_digits acc false (String c s) = Py.scan_digits (10 * acc + d) false s.
Proof. intros Hu Hd. cbn [Py.scan_digits]. now rewrite Hu, Hd. Qed.

Ltac scan_digit k :=
  rewrite (scan_digits_digit _ k) by reflexivity.

Lemma scan_digits_acc (d : Decimal.uint) (acc : positive) :
  Py.scan_digits (Z.pos acc) false (NilEmpty.string_of_uint d)
  = Some (Z.pos (Pos.of_uint_acc d acc), "").
Proof.
  revert acc. induction d; intros acc;
    cbn [NilEmpty.string_of_uint Pos.of_uint_acc]; [reflexivity|..].
  - scan_digit 0. replace (10 * Z.pos acc + 0) with (Z.pos (10 * acc)) by lia. apply IHd.
  - scan_digit 1. replace (10 * Z.pos acc + 1) with (Z.pos (1 + 10 * acc)) by lia. apply IHd.
  - scan_digit 2. replace (10 * Z.pos acc + 2) with (Z.pos (2 + 10 * acc)) by lia. apply IHd.
  - scan_digit 3. replace (10 * Z.pos acc + 3) with (Z.pos (3 + 10 * acc)) by lia. apply IHd.
  - scan_digit 4. replace (10 * Z.pos acc + 4) with (Z.pos (4 + 10 * acc)) by lia. apply IHd.
  - scan_digit 5. replace (10 * Z.pos acc + 5) with (Z.pos (5 + 10 * acc)) by lia. apply IHd.
  - scan_digit 6. replace (10 * Z.pos acc + 6) with (Z.pos (6 + 10 * acc)) by lia. apply IHd.
  - scan_digit 7. replace (10 * Z.pos acc + 7) with (Z.pos (7 + 10 * acc)) by lia. apply IHd.
  - scan_digit 8. replace (10 * Z.pos acc + 8) with (Z.pos (8 + 10 * acc)) by lia. apply IHd.
  - scan_digit 9. replace (10 * Z.pos acc + 9) with (Z.pos (9 + 10 * acc)) by lia. apply IHd.
Qed.

Lemma scan_digits_uint (d : Decimal.uint) :
  Py.scan_digits 0 false (NilEmpty.string_of_uint d) = Some (Z.of_N (Pos.of_uint d), "").
Proof.
  induction d; cbn [NilEmpty.string_of_uint Pos.of_uint]; [reflexivity|..].
  - scan_digit 0. exact IHd.
  - scan_digit 1. apply (scan_digits_acc d 1).
  - scan_digit 2. apply (scan_digits_acc d 2).
  - scan_digit 3. apply (scan_digits_acc d 3).
  - scan_digit 4. apply (scan_digits_acc d 4).
  - scan_digit 5. apply (scan_digits_acc d 5).
  - scan_digit 6. apply (scan_digits_acc d 6).
  - scan_digit 7. apply (scan_digits_acc d 7).
  - scan_digit 8. apply (scan_digits_acc d 8).
  - scan_digit 9. apply (scan_digits_acc d 9).
Qed.

Lemma unsigned_int_uint (d : Decimal.uint) :
  Py.unsigned_int (NilZero.string_of_uint d) = Some (Z.of_N (Pos.of_uint d)).
Proof.
  destruct d; [reflexivity|..];
    unfold NilZero.string_of_uint, Py.unsigned_int;
    rewrite scan_digits_uint; reflexivity.
Qed.

Lemma int_uint (d : Decimal.uint) :
  Py.int (NilZero.string_of_uint d) = Py.unsigned_int (NilZero.string_of_uint d).
Proof. destruct d; reflexivity. Qed.

Lemma int_str_of_int (n : Z) : Py.int (Py.str_of_int n) = Some n.
Proof.
  unfold Py.str_of_int. destruct n as [|p|p]; [reflexivity|..];
    cbn [Z.to_int NilZero.string_of_int].
  - rewrite int_uint, unsigned_int_uint, DecimalPos.Unsigned.of_to. reflexivity.
  - change (Py.int (String "-" (NilZero.string_of_uint (Pos.to_uint p))))
      with (option_map Z.opp (Py.unsigned_int (NilZero.string_of_uint (Pos.to_uint p)))).
    rewrite unsigned_int_uint, DecimalPos.Unsigned.of_to. reflexivity.
Qed.

(** ** The three outcomes of the report step *)

Lemma print_job_id_int (out tok : Py.bytes) (n : Z) :
  Py.int tok = Some n ->
  print_job_id out (Some tok) = ([Stdout (Py.str_of_int n)], inr tt).
Proof. unfold print_job_id. now intros ->. Qed.

Lemma print_job_id_not_int (out tok : Py.bytes) :
  Py.int tok = None ->
  print_job_id out (Some tok) =
  ([Stdout ("Not a submitted job: " ++ Py.repr_bytes out)], inl (SystemExit 2)).
Proof. unfold print_job_id. now intros ->. Qed.

Lemma print_job_id_no_token (out : Py.bytes) :
  print_job_id out None = ([], inl IndexError).
Proof. reflexivity. Qed.

Lemma stdout_of_app (t t' : list event) :
  stdout_of (t ++ t') = stdout_of t ++ stdout_of t'.
Proof.
  induction t as [|ev t IH]; [reflexivity|].
  destruct ev; simpl; rewrite IH; try reflexivity.
  now rewrite append_assoc.
Qed.

Lemma stderr_of_app (t t' : list event) :
  stderr_of (t ++ t') = (stderr_of t ++ stderr_of t')%list.
Proof. induction t as [|[] t IH]; simpl; now rewrite ?IH. Qed.

Lemma spawned_app (t t' : list event) :
  spawned (t ++ t') = (spawned t ++ spawned t')%list.
Proof. induction t as [|[] t IH]; simpl; now rewrite ?IH. Qed.

(** The [__main__] blocks run [schedule] on a job whose dependency ids are
    the strings of the command line. *)
Lemma main_eq (w : world) (ids : list string) script props conf :
  Qsub.main w ids script props conf
    = run_main (schedule GridEngine w script props (Some (map PyStr ids)) conf) /\
  Sbatch.main w ids script props conf
    = run_main (schedule Slurm w script props (Some (map PyStr ids)) conf).
Proof. split; reflexivity. Qed.

(** A run that submitted [cmd], in full. *)
Lemma submitted_run (b : backend) w script props deps conf (cmd : string) :
  submitted (schedule b w script props deps conf) cmd ->
  schedule b w script props deps conf =
  ((trace (directory_step w script props deps conf) ++
    Stderr cmd :: Popen cmd ::
    trace (print_job_id (communicate w cmd) (job_id_token b (communicate w cmd))))%list,
   result (print_job_id (communicate w cmd) (job_id_token b (communicate w cmd)))).
Proof.
  intros H. apply submitted_inv in H as [Hd Hc].
  rewrite (schedule_submits _ _ _ _ _ _ cmd Hd Hc). now rewrite report_eq.
Qed.

(** ** The rendering of captured bytes *)

Lemma text_char_escape (c : ascii) :
  text_char c = true ->
  Py.escape_char "'" c = literal_escape c /\ Ascii.eqb "'" c = false.
Proof.
  destruct c as [[] [] [] [] [] [] [] []]; vm_compute; intros H;
    first [discriminate H | split; reflexivity].
Qed.

Lemma text_no_single_quote (s : string) :
  forallb text_char (list_ascii_of_string s) = true -> Py.contains "'" s = false.
Proof.
  unfold Py.contains. induction s as [|c s IH]; cbn [list_ascii_of_string forallb existsb];
    [reflexivity|].
  intros H. apply andb_true_iff in H as [Hc Hs].
  destruct (text_char_escape c Hc) as [_ ->]. now apply IH.
Qed.

Lemma escape_text (s : string) :
  forallb text_char (list_ascii_of_string s) = true ->
  Py.escape "'" s = literal_body s.
Proof.
  induction s as [|c s IH]; cbn [list_ascii_of_string forallb Py.escape literal_body];
    [reflexivity|].
  intros H. apply andb_true_iff in H as [Hc Hs].
  destruct (text_char_escape c Hc) as [-> _]. now rewrite IH.
Qed.

(** Text of printable ASCII without single quotes is rendered as the bytes
    literal [b'...'], with its line breaks written as backslash, [n]. *)
Lemma repr_bytes_text (s : Py.bytes) :
  forallb text_char (list_ascii_of_string s) = true ->
  Py.repr_bytes s = bytes_literal s.
Proof.
  intros H. unfold Py.repr_bytes, Py.repr_quote, bytes_literal.
  rewrite (text_no_single_quote s H). cbn [andb].
  rewrite (escape_text s H). reflexivity.
Qed.

(** Every rendering is [b], a quote, a body and the same quote. *)
Lemma repr_bytes_shape (s : Py.bytes) :
  exists quote body,
    Py.repr_bytes s = String "b" (String quote (body ++ String quote "")) /\
    (quote = "'"%char \/ quote = "034"%char).
Proof.
  unfold Py.repr_bytes. exists (Py.repr_quote s), (Py.escape (Py.repr_quote s) s).
  split; [reflexivity|]. unfold Py.repr_quote.
  destruct (Py.contains "'" s && negb (Py.contains "034" s)); auto.
Qed.

(** ** Job-id extraction *)

Section Extraction.

Variables (b : backend) (w : world) (script : string) (props : job_properties)
          (deps : option (list obj)) (conf : dict).

Local Abbreviation run := (schedule b w script props deps conf).

(** C1. Whatever text the submission tool wrote: the token the adapter
    converts is the third whitespace-delimited token for the grid engine
    and the last one for Slurm; when that token parses as the integer [n],
    [schedule] returns normally, standard output holds the decimal numeral
    of [n] followed by a newline and nothing else (the numeral is made of
    digits and a sign, and reads back as [n]), and the process exits with
    status 0. *)
Theorem C1_job_id_printed (cmd : string) (tok : Py.bytes) (n : Z) :
  submitted run cmd ->
  selected b (Py.split (communicate w cmd)) tok ->
  Py.int tok = Some n ->
  job_id_token b (communicate w cmd) = Some tok /\
  result run = inr tt /\
  stdout_of (trace run) = Py.str_of_int n ++ newline /\
  forallb numeral_char (list_ascii_of_string (Py.str_of_int n)) = true /\
  Py.int (Py.str_of_int n) = Some n /\
  snd (run_main run) = 0.
Proof.
  intros Hsub Hsel Hint.
  apply job_id_token_selected in Hsel.
  pose proof (ensure_output_directory_spawns_nothing w (job_of script props deps conf))
    as (_ & Hout & _).
  rewrite (submitted_run _ _ _ _ _ _ _ Hsub), Hsel, (print_job_id_int _ _ _ Hint).
  repeat split.
  - unfold trace; simpl. rewrite stdout_of_app. unfold directory_step.
    unfold trace in Hout. rewrite Hout. reflexivity.
  - apply str_of_int_numeral.
  - apply int_str_of_int.
Qed.

(** C6, as the code has it. When the selected token does not parse as an
    integer, the adapter prints [Not a submitted job: ] followed, not by
    the captured text itself, but by the way Python writes the captured
    [bytes] object: [b], a quote, the escaped text and the quote again; for
    text of printable ASCII without single quotes that is [b'...'] with
    every line break written as a backslash and [n] (tab, carriage return
    and backslash are escaped alike).  No integer is printed, and the
    process ends with exit status 2. *)
Theorem C6_not_a_submitted_job (cmd : string) (tok : Py.bytes) :
  submitted run cmd ->
  selected b (Py.split (communicate w cmd)) tok ->
  Py.int tok = None ->
  stdout_of (trace run) =
    "Not a submitted job: " ++ Py.repr_bytes (communicate w cmd) ++ newline /\
  (forallb text_char (list_ascii_of_string (communicate w cmd)) = true ->
   stdout_of (trace run) =
     "Not a submitted job: " ++ bytes_literal (communicate w cmd) ++ newline) /\
  (exists quote body,
     stdout_of (trace run) =
       "Not a submitted job: b" ++ String quote (body ++ String quote newline) /\
     (quote = "'"%char \/ quote = "034"%char)) /\
  (forall n, ~ In (Stdout (Py.str_of_int n)) (trace run)) /\
  result run = inl (SystemExit 2) /\
  snd (run_main run) = 2.
Proof.
  intros Hsub Hsel Hint.
  apply job_id_token_selected in Hsel.
  pose proof (ensure_output_directory_spawns_nothing w (job_of script props deps conf))
    as (_ & Hout & _).
  pose proof (ensure_output_directory_eq w (job_of script props deps conf)) as Hdir.
  assert (Hstd : stdout_of (trace run) =
            "Not a submitted job: " ++ Py.repr_bytes (communicate w cmd) ++ newline).
  { rewrite (submitted_run _ _ _ _ _ _ _ Hsub), Hsel, (print_job_id_not_int _ _ Hint).
    cbn [trace fst]. rewrite stdout_of_app. unfold directory_step.
    rewrite Hout. reflexivity. }
  split; [exact Hstd|].
  split; [intros Htext; now rewrite Hstd, (repr_bytes_text _ Htext)|].
  split.
  { destruct (repr_bytes_shape (communicate w cmd)) as (quote & body & E & Hq).
    exists quote, body. split; [|exact Hq].
    rewrite Hstd, E. cbn [String.append]. rewrite !append_assoc. reflexivity. }
  rewrite (submitted_run _ _ _ _ _ _ _ Hsub), Hsel, (print_job_id_not_int _ _ Hint).
  repeat split.
  intros n. unfold directory_step. cbn [trace fst]. rewrite Hdir.
  intros Hin. apply in_app_or in Hin as [Hin|Hin].
  - destruct (ofiles _); simpl in Hin; [tauto|].
    destruct Hin as [Hin|[]]. discriminate.
  - cbn [In] in Hin. destruct Hin as [Hin|[Hin|[Hin|[]]]]; try discriminate.
    injection Hin as Hin. symmetry in Hin.
    exact (str_of_int_not_diagnostic _ _ Hin).
Qed.

(** C10. When the captured text has fewer tokens than the backend's
    position needs (fewer than three for the grid engine, none for Slurm),
    [schedule] raises [IndexError]: nothing is printed to standard output,
    no [Not a submitted job] diagnostic appears, and the exception leaves
    the script uncaught, so the process ends with status 1 and not 2. *)
Theorem C10_missing_token_raises_index_error (cmd : string) :
  submitted run cmd ->
  too_few_tokens b (Py.split (communicate w cmd)) ->
  result run = inl IndexError /\
  stdout_of (trace run) = "" /\
  stderr_of (fst (run_main run)) = [cmd] /\
  In (Traceback IndexError) (fst (run_main run)) /\
  snd (run_main run) = 1.
Proof.
  intros Hsub Hfew.
  apply job_id_token_too_few in Hfew.
  pose proof (ensure_output_directory_spawns_nothing w (job_of script props deps conf))
    as (_ & Hout & Herr).
  rewrite (submitted_run _ _ _ _ _ _ _ Hsub), Hfew, print_job_id_no_token.
  unfold trace, directory_step in *; simpl.
  rewrite stdout_of_app, !stderr_of_app, Hout, Herr. simpl.
  repeat split. apply in_or_app. right. simpl. auto.
Qed.

End Extraction.

Lemma C1_job_id_printed_witness :
  stdout_of (trace (schedule GridEngine Sample.accepting Sample.script Sample.props
                      Sample.deps Sample.conf_qsub)) = "12345" ++ newline /\
  stdout_of (trace (schedule Slurm Sample.accepting Sample.script Sample.props
                      Sample.deps Sample.conf_sbatch)) = "98765" ++ newline.
Proof.
  split.
  - refine (proj1 (proj2 (proj2
      (C1_job_id_printed GridEngine Sample.accepting Sample.script Sample.props
         Sample.deps Sample.conf_qsub (Sample.cmd GridEngine) "12345" 12345 _ _ _)))).
    + reflexivity.
    + exists "Your", "job",
        ["(" ++ dquote ++ "snakemake_map" ++ dquote ++ ")"; "has"; "been"; "submitted"].
      reflexivity.
    + reflexivity.
  - refine (proj1 (proj2 (proj2
      (C1_job_id_printed Slurm Sample.accepting Sample.script Sample.props
         Sample.deps Sample.conf_sbatch (Sample.cmd Slurm) "98765" 98765 _ _ _)))).
    + reflexivity.
    + exists ["Submitted"; "batch"; "job"]. reflexivity.
    + reflexivity.
Defined.

Lemma C6_not_a_submitted_job_witness :
  (stdout_of (trace (schedule GridEngine Sample.rejecting Sample.script Sample.props
                       Sample.deps Sample.conf_qsub))
   = "Not a submitted job: " ++ bytes_literal ("Unable to run job: denied" ++ newline)
     ++ newline /\
   snd (run_main (schedule GridEngine Sample.rejecting Sample.script Sample.props
                    Sample.deps Sample.conf_qsub)) = 2) /\
  (stdout_of (trace (schedule Slurm Sample.rejecting Sample.script Sample.props
                       Sample.deps Sample.conf_sbatch))
   = "Not a submitted job: "
     ++ bytes_literal ("sbatch: error: Batch job submission failed" ++ newline)
     ++ newline /\
   snd (run_main (schedule Slurm Sample.rejecting Sample.script Sample.props
                    Sample.deps Sample.conf_sbatch)) = 2).
Proof.
  split.
  - pose proof (C6_not_a_submitted_job GridEngine Sample.rejecting Sample.script
                  Sample.props Sample.deps Sample.conf_qsub (Sample.cmd GridEngine) "run")
      as H.
    destruct H as (_ & Htext & _ & _ & _ & Hexit).
    + reflexivity.
    + exists "Unable", "to", ["job:"; "denied"]. reflexivity.
    + reflexivity.
    + split; [exact (Htext eq_refl) | exact Hexit].
  - pose proof (C6_not_a_submitted_job Slurm Sample.rejecting Sample.script
                  Sample.props Sample.deps Sample.conf_sbatch (Sample.cmd Slurm) "failed")
      as H.
    destruct H as (_ & Htext & _ & _ & _ & Hexit).
    + reflexivity.
    + exists ["sbatch:"; "error:"; "Batch"; "job"; "submission"]. reflexivity.
    + reflexivity.
    + split; [exact (Htext eq_refl) | exact Hexit].
Defined.

(** The scheduler answers [Unable to run job: denied] and a line break.
    What follows [Not a submitted job: ] on standard output is not that
    text: it is the text between [b'] and ['], with the line break written
    as a backslash and [n]. *)
Lemma C6_counterexample :
  communicate Sample.rejecting (Sample.cmd GridEngine)
    = "Unable to run job: denied" ++ newline /\
  stdout_of (trace (schedule GridEngine Sample.rejecting Sample.script Sample.props
                      Sample.deps Sample.conf_qsub))
    = "Not a submitted job: b'Unable to run job: denied\n'" ++ newline /\
  stdout_of (trace (schedule GridEngine Sample.rejecting Sample.script Sample.props
                      Sample.deps Sample.conf_qsub))
    <> "Not a submitted job: " ++ ("Unable to run job: denied" ++ newline) ++ newline.
Proof. repeat split. discriminate. Qed.

Lemma C10_missing_token_raises_index_error_witness :
  result (schedule GridEngine Sample.silent Sample.script Sample.props
            Sample.deps Sample.conf_qsub) = inl IndexError /\
  result (schedule Slurm Sample.silent Sample.script Sample.props
            Sample.deps Sample.conf_sbatch) = inl IndexError.
Proof.
  split.
  - refine (proj1
      (C10_missing_token_raises_index_error GridEngine Sample.silent Sample.script
         Sample.props Sample.deps Sample.conf_qsub (Sample.cmd GridEngine) _ _)).
    + reflexivity.
    + vm_compute. lia.
  - refine (proj1
      (C10_missing_token_raises_index_error Slurm Sample.silent Sample.script
         Sample.props Sample.deps Sample.conf_sbatch (Sample.cmd Slurm) _ _)).
    + reflexivity.
    + reflexivity.
Defined.

(** ** Resolution of the resource configuration *)

Lemma rule_conf_present (self : SnakeJob) (v : obj) :
  dict_get ("schedule_" ++ rule self) (config self) = Some v ->
  rule_conf self =
  try_except
    (redirect <- startswith v "schedule_" ;;
     if redirect : bool then getitem (PyDict (config self)) (str v) else ret v)
    (fun e =>
       match e with
       | KeyError _ => raise (UndefinedJobRule ("No schedule config found for " ++ str v))
       | AttributeError => ret v
       | _ => raise e
       end).
Proof.
  intros H. unfold rule_conf, dict_in, getitem. rewrite H.
  unfold bind at 1, ret at 1. cbn [app].
  now destruct (try_except _ _).
Qed.

Lemma rule_conf_absent (self : SnakeJob) :
  dict_get ("schedule_" ++ rule self) (config self) = None ->
  rule_conf self =
  raise (UndefinedJobRule ("No schedule config found for schedule_" ++ rule self)).
Proof. intros H. unfold rule_conf, dict_in. now rewrite H. Qed.

(** A failed resolution is the failure of the command. *)
Lemma command_rule_conf_raises (b : backend) script props deps conf (e : exn) :
  result (rule_conf (job_of script props deps conf)) = inl e ->
  result (command b script props deps conf) = inl e.
Proof.
  destruct b; unfold command, Qsub.qsub_cmd, Sbatch.sbatch_cmd; cbn [Qsub.job Sbatch.job Qsub.init Sbatch.init];
    fold (job_of script props deps conf);
    destruct (rule_conf (job_of script props deps conf)) as [t [e'|v]];
    cbn [result snd bind]; congruence.
Qed.

Section Resolution.

Variables (script : string) (props : job_properties)
          (deps : option (list obj)) (conf : dict).

Local Abbreviation self := (job_of script props deps conf).
Local Abbreviation key := ("schedule_" ++ jp_rule props).

(** C3. For a rule whose key is in the table: a record stored under the
    key is returned unchanged; a string starting with [schedule_] whose
    target key exists makes resolution return what is stored under the
    target key, which for a record is that record and not the string. *)
Theorem C3_resolution_returns_record :
  (forall r, dict_get key conf = Some (PyDict r) -> rule_conf self = ret (PyDict r)) /\
  (forall s v,
      dict_get key conf = Some (PyStr s) ->
      String.prefix "schedule_" s = true ->
      dict_get s conf = Some v ->
      rule_conf self = ret v /\
      (forall r, v = PyDict r -> rule_conf self <> ret (PyStr s))).
Proof.
  split.
  - intros r H. now rewrite (rule_conf_present self _ H).
  - intros s v Hk Hp Ht.
    assert (E : rule_conf self = ret v).
    { rewrite (rule_conf_present self _ Hk). cbn [startswith str].
      rewrite Hp. unfold getitem. cbn. now rewrite Ht. }
    split; [exact E|].
    intros r -> H. rewrite E in H. discriminate.
Qed.

(** C5. For a rule whose configured value is a redirect string with no
    entry under the target key, resolution raises [UndefinedJobRule]; the
    message names the target key, which is not the rule's own key. *)
Theorem C5_dangling_redirect_names_target (s : string) :
  dict_get key conf = Some (PyStr s) ->
  String.prefix "schedule_" s = true ->
  dict_get s conf = None ->
  rule_conf self = raise (UndefinedJobRule ("No schedule config found for " ++ s)) /\
  "No schedule config found for " ++ s <> "No schedule config found for " ++ key /\
  (forall b, result (command b script props deps conf) =
             inl (UndefinedJobRule ("No schedule config found for " ++ s))).
Proof.
  intros Hk Hp Ht.
  assert (E : rule_conf self =
              raise (UndefinedJobRule ("No schedule config found for " ++ s))).
  { rewrite (rule_conf_present self _ Hk). cbn [startswith str].
    rewrite Hp. unfold getitem. cbn. now rewrite Ht. }
  repeat split.
  - exact E.
  - intros H. apply append_inj_l in H. subst s. congruence.
  - intros b. apply command_rule_conf_raises. now rewrite E.
Qed.

End Resolution.

Lemma C3_resolution_returns_record_witness :
  rule_conf (job_of Sample.script Sample.props Sample.deps Sample.conf_sbatch) =
    ret (PyDict [("days", PyInt 0); ("hours", PyInt 1); ("minutes", PyInt 30);
                 ("partition", PyStr "core"); ("cores", PyInt 1);
                 ("extra_parameters", PyStr "-C fat")]) /\
  rule_conf (job_of Sample.script Sample.props Sample.deps Sample.conf_qsub) =
    ret (PyDict [("queue", PyStr "all.q"); ("threads", PyInt 4)]).
Proof.
  split.
  - refine (proj1 (C3_resolution_returns_record Sample.script Sample.props Sample.deps
                     Sample.conf_sbatch) _ _).
    reflexivity.
  - refine (proj1 (proj2 (C3_resolution_returns_record Sample.script Sample.props
                            Sample.deps Sample.conf_qsub) "schedule_big" _ _ _ _)).
    + reflexivity.
    + reflexivity.
    + reflexivity.
Defined.

Lemma C5_dangling_redirect_names_target_witness :
  rule_conf (job_of Sample.script Sample.props Sample.deps Sample.conf_dangling) =
  raise (UndefinedJobRule "No schedule config found for schedule_gone").
Proof.
  refine (proj1 (C5_dangling_redirect_names_target Sample.script Sample.props
                   Sample.deps Sample.conf_dangling "schedule_gone" _ _ _)).
  - reflexivity.
  - reflexivity.
  - reflexivity.
Defined.

(** ** A rule without configuration, and the order of the steps *)

Lemma directory_step_trace (w : world) script props deps conf :
  trace (directory_step w script props deps conf) =
  match jp_output props with
  | [] => []
  | first :: _ => [Makedirs (dirname (abspath w first))]
  end.
Proof.
  unfold directory_step. rewrite ensure_output_directory_eq.
  cbn [job_of SnakeJob_init ofiles]. now destruct (jp_output props).
Qed.

Section Order.

Variables (b : backend) (w : world) (script : string) (props : job_properties)
          (deps : option (list obj)) (conf : dict).

Local Abbreviation run := (schedule b w script props deps conf).
Local Abbreviation dir := (directory_step w script props deps conf).
Local Abbreviation key := ("schedule_" ++ jp_rule props).
Local Abbreviation missing :=
  ("No schedule config found for schedule_" ++ jp_rule props).

(** The run for a rule whose key is not in the table. *)
Lemma missing_rule_run :
  dict_get key conf = None ->
  rule_conf (job_of script props deps conf) = raise (UndefinedJobRule missing) /\
  spawned (trace run) = [] /\
  stdout_of (trace run) = "" /\
  (result dir = inr tt ->
   result run = inl (UndefinedJobRule missing) /\
   stderr_of (fst (run_main run)) = [missing] /\
   snd (run_main run) = 2).
Proof.
  intros Hk.
  pose proof (rule_conf_absent (job_of script props deps conf) Hk) as E.
  cbn [job_of SnakeJob_init rule] in E. fold (job_of script props deps conf) in E.
  pose proof (ensure_output_directory_spawns_nothing w (job_of script props deps conf))
    as (Hs & Ho & He). fold dir in Hs, Ho, He.
  assert (Hc : result (command b script props deps conf) = inl (UndefinedJobRule missing)).
  { apply command_rule_conf_raises. now rewrite E. }
  split; [exact E|].
  destruct (result dir) as [e|[]] eqn:Ed.
  - rewrite (schedule_directory_raises _ _ _ _ _ _ e Ed). cbn [trace fst].
    split; [exact Hs|]. split; [exact Ho|]. intros [=].
  - rewrite (schedule_command_raises _ _ _ _ _ _ _ Ed Hc).
    cbn [trace fst result snd run_main].
    split; [exact Hs|]. split; [exact Ho|]. intros _.
    split; [reflexivity|]. split; [|reflexivity].
    rewrite stderr_of_app. fold (trace dir). now rewrite He.
Qed.

(** C2, as the code has it. For a rule whose key is not in the table: no
    process is spawned and nothing is written to standard output, whatever
    else happens; and when creating the output directory, which comes
    first, did not fail, [schedule] raises [UndefinedJobRule] with the
    message naming the rule's key, the script prints that message to the
    diagnostic stream and exits with status 2. *)
Theorem C2_missing_rule_aborts_before_submission :
  dict_get key conf = None ->
  rule_conf (job_of script props deps conf) = raise (UndefinedJobRule missing) /\
  spawned (trace run) = [] /\
  stdout_of (trace run) = "" /\
  (result dir = inr tt ->
   result run = inl (UndefinedJobRule missing) /\
   stderr_of (fst (run_main run)) = [missing] /\
   snd (run_main run) = 2).
Proof. exact missing_rule_run. Qed.

(** C8, as the code has it. The steps of [schedule] come in the order:
    output directory, resource configuration, command, echo and
    submission, report.  A failure of the directory step ends the run
    whatever the configuration holds; a failed resolution or command
    ends it with the directory step as the only effect; otherwise the
    command is echoed, then run, then its output reported.  A missing
    configuration after a successful directory step ends the process
    with status 2 and nothing submitted. *)
Theorem C8_order_of_steps :
  trace dir = match jp_output props with
              | [] => []
              | first :: _ => [Makedirs (dirname (abspath w first))]
              end /\
  (forall e, result dir = inl e -> run = (trace dir, inl e)) /\
  (forall e, result dir = inr tt ->
             result (rule_conf (job_of script props deps conf)) = inl e ->
             run = (trace dir, inl e)) /\
  (forall e, result dir = inr tt ->
             result (command b script props deps conf) = inl e ->
             run = (trace dir, inl e)) /\
  (forall cmd, result dir = inr tt ->
               result (command b script props deps conf) = inr cmd ->
               exists reported,
                 trace run = (trace dir ++ Stderr cmd :: Popen cmd :: reported)%list /\
                 reported = trace (print_job_id (communicate w cmd)
                                     (job_id_token b (communicate w cmd)))) /\
  (result dir = inr tt -> dict_get key conf = None ->
   snd (run_main run) = 2 /\ spawned (trace run) = []).
Proof.
  split; [apply directory_step_trace|].
  split; [intros e; apply schedule_directory_raises|].
  split.
  { intros e Hd Hr. apply schedule_command_raises; [exact Hd|].
    now apply command_rule_conf_raises. }
  split; [intros e; apply schedule_command_raises|].
  split.
  { intros cmd Hd Hc. eexists. split; [|reflexivity].
    rewrite (schedule_submits _ _ _ _ _ _ cmd Hd Hc), report_eq. reflexivity. }
  intros Hd Hk.
  destruct (missing_rule_run Hk) as (_ & Hs & _ & H).
  destruct (H Hd) as (_ & _ & Hx). now split.
Qed.

End Order.

Lemma C2_missing_rule_aborts_before_submission_witness :
  dict_get "schedule_map" Sample.conf_no_rule = None /\
  result (schedule Slurm Sample.accepting Sample.script Sample.props Sample.deps
            Sample.conf_no_rule) =
    inl (UndefinedJobRule "No schedule config found for schedule_map") /\
  snd (run_main (schedule Slurm Sample.accepting Sample.script Sample.props
                   Sample.deps Sample.conf_no_rule)) = 2.
Proof.
  split; [reflexivity|].
  pose proof (C2_missing_rule_aborts_before_submission Slurm Sample.accepting
                Sample.script Sample.props Sample.deps Sample.conf_no_rule
                eq_refl) as (_ & _ & _ & H).
  destruct (H eq_refl) as (Hr & _ & Hx).
  split; [exact Hr | exact Hx].
Defined.

(** The rule has no configuration, yet [schedule] raises [OSError] and not
    [UndefinedJobRule]: the output directory comes first, and it could not
    be created. *)
Lemma C2_counterexample :
  dict_get "schedule_map" Sample.conf_no_rule = None /\
  schedule GridEngine Sample.read_only Sample.script Sample.props Sample.deps
    Sample.conf_no_rule
  = ([Makedirs "/work/out"], inl (OSError Sample.EACCES)) /\
  result (schedule GridEngine Sample.read_only Sample.script Sample.props Sample.deps
            Sample.conf_no_rule)
  <> inl (UndefinedJobRule "No schedule config found for schedule_map").
Proof. repeat split. discriminate. Qed.

Lemma C8_order_of_steps_witness :
  snd (run_main (schedule GridEngine Sample.accepting Sample.script Sample.props
                   Sample.deps Sample.conf_no_rule)) = 2 /\
  spawned (trace (schedule GridEngine Sample.accepting Sample.script Sample.props
                    Sample.deps Sample.conf_no_rule)) = [].
Proof.
  pose proof (C8_order_of_steps GridEngine Sample.accepting Sample.script Sample.props
                Sample.deps Sample.conf_no_rule) as (_ & _ & _ & _ & _ & H).
  exact (H eq_refl eq_refl).
Defined.

(** The run ends for want of a configuration, and the output directory has
    been created all the same: the directory step did not wait for the
    configuration to be resolved. *)
Lemma C8_counterexample :
  result (schedule GridEngine Sample.accepting Sample.script Sample.props Sample.deps
            Sample.conf_no_rule)
  = inl (UndefinedJobRule "No schedule config found for schedule_map") /\
  made_dirs (trace (schedule GridEngine Sample.accepting Sample.script Sample.props
                      Sample.deps Sample.conf_no_rule)) = ["/work/out"] /\
  schedule Slurm Sample.read_only Sample.script Sample.props Sample.deps
    Sample.conf_sbatch
  = ([Makedirs "/work/out"], inl (OSError Sample.EACCES)).
Proof. repeat split. Qed.

(** ** Dependency encoding *)

Lemma list_ascii_of_string_app (s t : string) :
  list_ascii_of_string (s ++ t) = (list_ascii_of_string s ++ list_ascii_of_string t)%list.
Proof. induction s as [|c s IH]; simpl; [reflexivity | now rewrite IH]. Qed.

Lemma no_space_app (s t : string) :
  no_space (s ++ t) = no_space s && no_space t.
Proof. unfold no_space. now rewrite list_ascii_of_string_app, forallb_app. Qed.

Lemma no_space_concat (sep : string) (l : list string) :
  no_space sep = true -> Forall (fun s => no_space s = true) l ->
  no_space (String.concat sep l) = true.
Proof.
  intros Hsep. induction 1 as [|s l Hs Hl IH]; [reflexivity|].
  destruct l as [|s' l]; [exact Hs|].
  change (String.concat sep (s :: s' :: l)) with (s ++ sep ++ String.concat sep (s' :: l)).
  now rewrite !no_space_app, Hs, Hsep, IH.
Qed.

Lemma numeral_char_not_space (c : ascii) :
  numeral_char c = true -> negb (Py.isspace c) = true.
Proof.
  destruct c as [[] [] [] [] [] [] [] []]; vm_compute; congruence.
Qed.

Lemma no_space_str_of_int (n : Z) : no_space (Py.str_of_int n) = true.
Proof.
  unfold no_space. apply forallb_forall. intros c Hc.
  apply numeral_char_not_space.
  pose proof (str_of_int_numeral n) as H.
  rewrite forallb_forall in H. now apply H.
Qed.

Lemma no_space_dep_item (b : backend) (n : Z) : no_space (dep_item b (PyInt n)) = true.
Proof.
  destruct b; cbn [dep_item str repr].
  - apply no_space_str_of_int.
  - rewrite no_space_app, no_space_str_of_int. reflexivity.
Qed.

Lemma no_space_dep_items (b : backend) (ns : list Z) :
  Forall (fun s => no_space s = true) (map (dep_item b) (map PyInt ns)).
Proof.
  induction ns as [|n ns IH]; constructor; [apply no_space_dep_item | exact IH].
Qed.

(** What [__init__] computes, in the vocabulary of the specification. *)
Lemma dep_str_eq (b : backend) script props deps conf :
  dep_str b script props deps conf =
  match deps with
  | None | Some [] => ""
  | Some ds => dep_option b ++ String.concat "," (map (dep_item b) ds)
  end.
Proof. destruct b, deps as [[|d ds]|]; reflexivity. Qed.

Section Dependencies.

Variables (script : string) (props : job_properties) (conf : dict).

(** C4. The encoding is the empty string exactly when the dependency list
    is empty or absent.  For a non-empty list it is, for the grid engine,
    [-hold_jid ] followed by the ids joined by commas, and for Slurm,
    [-d ] followed by the ids, each prefixed with [afterok:], joined by
    commas; for integer ids the joined part holds no whitespace.  The
    ids 5 and 7 give [-hold_jid 5,7] and [-d afterok:5,afterok:7], passed as
    integers or, as from the command line, as strings. *)
Theorem C4_dependency_encoding (b : backend) (deps : option (list obj)) :
  (dep_str b script props deps conf = "" <-> deps = None \/ deps = Some []) /\
  (forall d ds, deps = Some (d :: ds) ->
     dep_str GridEngine script props deps conf
       = "-hold_jid " ++ String.concat "," (map str (d :: ds)) /\
     dep_str Slurm script props deps conf
       = "-d " ++ String.concat "," (map (fun d => "afterok:" ++ str d) (d :: ds))) /\
  (forall n ns, deps = Some (map PyInt (n :: ns)) ->
     exists ids, dep_str b script props deps conf = dep_option b ++ ids /\
                 no_space ids = true) /\
  dep_str GridEngine script props (Some [PyInt 5; PyInt 7]) conf = "-hold_jid 5,7" /\
  dep_str Slurm script props (Some [PyInt 5; PyInt 7]) conf = "-d afterok:5,afterok:7" /\
  dep_str GridEngine script props (Some [PyStr "5"; PyStr "7"]) conf = "-hold_jid 5,7" /\
  dep_str Slurm script props (Some [PyStr "5"; PyStr "7"]) conf = "-d afterok:5,afterok:7".
Proof.
  split.
  { rewrite dep_str_eq. destruct deps as [[|d ds]|].
    - split; auto.
    - split; [destruct b; discriminate|]. intros [H|H]; discriminate.
    - split; auto. }
  split.
  { intros d ds ->. split; reflexivity. }
  split.
  { intros n ns ->. rewrite dep_str_eq. cbn [map].
    eexists. split; [reflexivity|].
    apply no_space_concat; [reflexivity|].
    apply (no_space_dep_items b (n :: ns)). }
  repeat split.
Qed.

End Dependencies.

Lemma C4_dependency_encoding_witness :
  dep_str GridEngine Sample.script Sample.props Sample.deps Sample.conf_qsub
    = "-hold_jid 5,7" /\
  dep_str Slurm Sample.script Sample.props Sample.deps Sample.conf_sbatch
    = "-d afterok:5,afterok:7" /\
  dep_str Slurm Sample.script Sample.props (Some []) Sample.conf_sbatch = "".
Proof.
  pose proof (C4_dependency_encoding Sample.script Sample.props Sample.conf_qsub
                GridEngine Sample.deps) as (_ & Hq & _).
  pose proof (C4_dependency_encoding Sample.script Sample.props Sample.conf_sbatch
                Slurm Sample.deps) as (_ & Hs & _).
  pose proof (C4_dependency_encoding Sample.script Sample.props Sample.conf_sbatch
                Slurm (Some [])) as (He & _).
  split; [exact (proj1 (Hq _ _ eq_refl))|].
  split; [exact (proj2 (Hs _ _ eq_refl))|].
  apply He. right. reflexivity.
Defined.

(** ** Log and error file names *)





(** One step of [format_from] at a time. *)


Lemma format_from_open (t : string) (attrs : dict) :
  format_from None (String "{" t) attrs = format_from (Some []) t attrs.
Proof. reflexivity. Qed.

Lemma format_from_name (c : ascii) (name : list ascii) (t : string) (attrs : dict) :
  Ascii.eqb c "}" = false ->
  format_from (Some name) (String c t) attrs = format_from (Some (c :: name)) t attrs.
Proof. intros H. cbn [format_from]. now rewrite H. Qed.




Lemma qsub_cmd_eq script props deps conf :
  command GridEngine script props deps conf =
  (rc <- rule_conf (job_of script props deps conf) ;;
   attrs <- Qsub.attributes (Qsub.init script props deps conf) rc ;;
   format_from None Qsub.template attrs).
Proof. reflexivity. Qed.

Lemma sbatch_cmd_eq script props deps conf :
  command Slurm script props deps conf =
  (rc <- rule_conf (job_of script props deps conf) ;;
   attrs <- Sbatch.attributes (Sbatch.init script props deps conf) rc ;;
   format_from None Sbatch.template attrs).
Proof. reflexivity. Qed.

Lemma qsub_template_eq :
  Qsub.template =
  "qsub -o {log_file} -e {err_file} {dep_str} -q {queue} -pe smp {threads}                     -N {job_name} {extra_parameters} {qsub_job_path}                     '{script_name}'".
Proof. reflexivity. Qed.

Lemma sbatch_template_eq :
  Sbatch.template =
  "sbatch --output={log_file} {dep_str} -A {account} -p {partition} -n {cores} -t {days}-{hours}:{minutes}:00                     -J {job_name} {extra_parameters} {sbatch_job_path}                     '{script_name}'".
Proof. reflexivity. Qed.



(** ** The two output streams *)

(** C7 at an input where it fails. The scheduler refuses the job: the
    echoed command goes to the diagnostic stream, but the explanation
    [Not a submitted job: ...] is written to standard output, in both
    adapters; the process ends with status 2. *)
Theorem C7_extraction_failure_written_to_stdout :
  stdout_of (fst (Qsub.main Sample.rejecting ["5"; "7"] Sample.script Sample.props
                    Sample.conf_qsub))
    = "Not a submitted job: b'Unable to run job: denied\n'" ++ newline /\
  stderr_of (fst (Qsub.main Sample.rejecting ["5"; "7"] Sample.script Sample.props
                    Sample.conf_qsub))
    = [Sample.cmd GridEngine] /\
  snd (Qsub.main Sample.rejecting ["5"; "7"] Sample.script Sample.props
         Sample.conf_qsub) = 2 /\
  stdout_of (fst (Sbatch.main Sample.rejecting ["5"; "7"] Sample.script Sample.props
                    Sample.conf_sbatch))
    = "Not a submitted job: b'sbatch: error: Batch job submission failed\n'" ++ newline /\
  stderr_of (fst (Sbatch.main Sample.rejecting ["5"; "7"] Sample.script Sample.props
                    Sample.conf_sbatch))
    = [Sample.cmd Slurm] /\
  snd (Sbatch.main Sample.rejecting ["5"; "7"] Sample.script Sample.props
         Sample.conf_sbatch) = 2.
Proof. repeat split. Qed.

(** ** [make_dir] and [SnakeJob.__init__] *)

(** [make_dir] calls [os.makedirs] once; it returns normally exactly when
    the directory was created or existed already, and passes on any other
    [OSError] unchanged. *)
Theorem make_dir_tolerates_existing (w : world) (directory : string) :
  trace (make_dir w directory) = [Makedirs directory] /\
  (result (make_dir w directory) = inr tt <->
   makedirs w directory = None \/ makedirs w directory = Some EEXIST) /\
  (forall n, makedirs w directory = Some n -> n <> EEXIST ->
             result (make_dir w directory) = inl (OSError n)).
Proof.
  unfold make_dir, os_makedirs, try_except, bind, emit, trace, result.
  destruct (makedirs w directory) as [n|] eqn:E; cbn.
  - destruct (Z.eqb_spec n EEXIST) as [->|Hn]; cbn.
    + repeat split; auto. intros n [= <-] H. contradiction.
    + repeat split.
      * discriminate.
      * intros [H|[= H]]; [discriminate | contradiction].
      * now intros m [= <-] _.
  - repeat split; auto. discriminate.
Qed.

Lemma make_dir_tolerates_existing_witness :
  result (make_dir Sample.rejecting "/work/out") = inr tt /\
  result (make_dir Sample.read_only "/work/out") = inl (OSError Sample.EACCES).
Proof.
  pose proof (make_dir_tolerates_existing Sample.rejecting "/work/out") as (_ & H & _).
  pose proof (make_dir_tolerates_existing Sample.read_only "/work/out") as (_ & _ & H').
  split.
  - apply H. right. reflexivity.
  - apply H'; [reflexivity | discriminate].
Defined.

(** [SnakeJob.__init__] keeps the invariant its [assert] states: the stored
    dependencies are either absent or a list with at least one entry; an
    empty list is stored as absent and a non-empty list is stored as it
    came. *)
Theorem SnakeJob_init_dependencies script props (deps : option (list obj)) conf :
  (dependencies (SnakeJob_init script props deps conf) = None <->
   deps = None \/ deps = Some []) /\
  (forall l, dependencies (SnakeJob_init script props deps conf) = Some l ->
             deps = Some l /\ (1 <= length l)%nat) /\
  (forall d ds, deps = Some (d :: ds) ->
                dependencies (SnakeJob_init script props deps conf) = Some (d :: ds)).
Proof.
  destruct deps as [[|d ds]|]; cbn.
  - split; [split; auto|]. split; [discriminate|]. intros d ds [=].
  - split; [split; [discriminate | intros [H|H]; discriminate]|].
    split.
    + intros l [= <-]. split; [reflexivity | cbn; lia].
    + now intros d' ds' [= <- <-].
  - split; [split; auto|]. split; discriminate.
Qed.

Lemma SnakeJob_init_dependencies_witness :
  dependencies (SnakeJob_init Sample.script Sample.props (Some []) Sample.conf_qsub) = None /\
  dependencies (SnakeJob_init Sample.script Sample.props Sample.deps Sample.conf_qsub)
    = Some [PyInt 5; PyInt 7].
Proof.
  split.
  - apply (SnakeJob_init_dependencies Sample.script Sample.props (Some [])
             Sample.conf_qsub). right. reflexivity.
  - apply (proj2 (proj2 (SnakeJob_init_dependencies Sample.script Sample.props
                           Sample.deps Sample.conf_qsub))). reflexivity.
Defined.

(** ** Laws of the monad *)

Lemma bind_ret_l {A B} (x : A) (f : A -> M B) : bind (ret x) f = f x.
Proof. unfold bind, ret. now destruct (f x). Qed.

Lemma bind_raise_l {A B} (e : exn) (f : A -> M B) : bind (raise e) f = raise e.
Proof. reflexivity. Qed.

Lemma pure_eq {A} (m : M A) : pure m -> m = ([], result m).
Proof. unfold pure, trace, result. destruct m; cbn. now intros ->. Qed.

Lemma getitem_some (d : dict) (k : string) (v : obj) :
  dict_get k d = Some v -> getitem (PyDict d) k = ret v.
Proof. unfold getitem. now intros ->. Qed.

Lemma getitem_none (d : dict) (k : string) :
  dict_get k d = None -> getitem (PyDict d) k = raise (KeyError k).
Proof. unfold getitem. now intros ->. Qed.

Lemma getitem_not_dict (o : obj) (k : string) :
  (forall d, o <> PyDict d) -> getitem o k = raise TypeError.
Proof. intros H. destruct o; try reflexivity. now destruct (H d). Qed.

Lemma get_default_dict (d : dict) (k : string) (v0 : obj) :
  get_default (PyDict d) k v0
  = ret (match dict_get k d with Some v => v | None => v0 end).
Proof. unfold get_default. now destruct (dict_get k d). Qed.

(** ** Resolution, in full *)

Section ResolutionCases.

Variable self : SnakeJob.

Local Abbreviation key := ("schedule_" ++ rule self).

(** What [rule_conf] yields, by the value stored under the rule's key. *)
Lemma rule_conf_cases :
  rule_conf self =
  match dict_get key (config self) with
  | None => raise (UndefinedJobRule ("No schedule config found for " ++ key))
  | Some (PyStr s) =>
      if String.prefix "schedule_" s then
        match dict_get s (config self) with
        | Some v => ret v
        | None => raise (UndefinedJobRule ("No schedule config found for " ++ s))
        end
      else ret (PyStr s)
  | Some v => ret v
  end.
Proof.
  destruct (dict_get key (config self)) as [v|] eqn:E.
  - rewrite (rule_conf_present self v E).
    destruct v; try reflexivity.
    cbn [startswith str]. rewrite bind_ret_l.
    destruct (String.prefix "schedule_" s); [|reflexivity].
    unfold getitem. now destruct (dict_get s (config self)).
  - rewrite (rule_conf_absent self E). reflexivity.
Qed.

(** Resolution raises nothing but [UndefinedJobRule]: the [AttributeError]
    of a value without [startswith] is swallowed and the [KeyError] of a
    missing target is translated.  It follows one redirect and no more: a
    target that holds a string, even one that names a further existing
    key, is returned as that string.  A string that does not start with
    [schedule_] and any value that is not a string are returned
    unchanged. *)
Theorem resolution_one_hop_only :
  (forall e, result (rule_conf self) = inl e -> exists msg, e = UndefinedJobRule msg) /\
  (forall s s2,
      dict_get key (config self) = Some (PyStr s) ->
      String.prefix "schedule_" s = true ->
      dict_get s (config self) = Some (PyStr s2) ->
      rule_conf self = ret (PyStr s2)) /\
  (forall s,
      dict_get key (config self) = Some (PyStr s) ->
      String.prefix "schedule_" s = false ->
      rule_conf self = ret (PyStr s)) /\
  (forall v,
      dict_get key (config self) = Some v ->
      (forall s, v <> PyStr s) ->
      rule_conf self = ret v).
Proof.
  rewrite rule_conf_cases. repeat split.
  - intros e.
    destruct (dict_get key (config self)) as [[| | |s| |]|]; cbn; try discriminate.
    + destruct (String.prefix "schedule_" s); [|discriminate].
      destruct (dict_get s (config self)); [discriminate|].
      intros [= <-]. eauto.
    + intros [= <-]. eauto.
  - intros s s2 -> -> ->. reflexivity.
  - intros s -> ->. reflexivity.
  - intros v -> Hv. destruct v; try reflexivity. now destruct (Hv s).
Qed.

End ResolutionCases.

(** A configuration with a chain of two redirects. *)
Lemma resolution_one_hop_only_witness :
  rule_conf (job_of Sample.script Sample.props Sample.deps
               [("schedule_map", PyStr "schedule_a");
                ("schedule_a", PyStr "schedule_b");
                ("schedule_b", PyDict [("queue", PyStr "all.q")])])
  = ret (PyStr "schedule_b") /\
  rule_conf (job_of Sample.script Sample.props Sample.deps
               [("schedule_map", PyStr "big")]) = ret (PyStr "big") /\
  rule_conf (job_of Sample.script Sample.props Sample.deps
               [("schedule_map", PyInt 4)]) = ret (PyInt 4).
Proof.
  split; [|split].
  - refine (proj1 (proj2 (resolution_one_hop_only _)) "schedule_a" "schedule_b" _ _ _);
      reflexivity.
  - refine (proj1 (proj2 (proj2 (resolution_one_hop_only _))) "big" _ _); reflexivity.
  - refine (proj2 (proj2 (proj2 (resolution_one_hop_only _))) (PyInt 4) _ _);
      [reflexivity | discriminate].
Defined.

(** ** The submission command, in full *)

Lemma format_from_literal_ret (c : ascii) (t : string) (attrs : dict) (rest : string) :
  Ascii.eqb c "{" = false -> Ascii.eqb c "}" = false ->
  format_from None t attrs = ret rest ->
  format_from None (String c t) attrs = ret (String c rest).
Proof.
  intros Ho Hc H. cbn [format_from]. rewrite Ho, Hc, H. reflexivity.
Qed.

Lemma format_from_close_ret (name : list ascii) (t : string) (attrs : dict)
    (v : obj) (rest : string) :
  dict_get (string_of_list_ascii (rev name)) attrs = Some v ->
  format_from None t attrs = ret rest ->
  format_from (Some name) (String "}" t) attrs = ret (str v ++ rest).
Proof.
  intros Hv H. cbn [format_from Ascii.eqb Bool.eqb].
  rewrite (getitem_some _ _ _ Hv), bind_ret_l, H. reflexivity.
Qed.

Lemma format_eq (template : string) (attrs : dict) :
  format template attrs = format_from None template attrs.
Proof. reflexivity. Qed.

Ltac format_forward :=
  repeat first
    [ eapply format_from_literal_ret; [reflexivity | reflexivity |]
    | rewrite format_from_open;
      repeat (rewrite format_from_name by reflexivity);
      eapply format_from_close_ret; [reflexivity |]
    | reflexivity ].

(** Formatting the grid-engine template never fails on the attributes
    [schedule] builds, whatever their values. *)
Lemma qsub_format (dep job script log err : string) (wrapper queue threads extra : obj) :
  format Qsub.template
    [ ("dep_str", PyStr dep); ("job_name", PyStr job); ("qsub_job_path", wrapper);
      ("script_name", PyStr script); ("queue", queue); ("threads", threads);
      ("log_file", PyStr log); ("err_file", PyStr err);
      ("extra_parameters", extra) ]
  = ret ("qsub -o " ++ log ++ " -e " ++ err ++ " " ++ dep
         ++ " -q " ++ str queue ++ " -pe smp " ++ str threads ++ " " ++ indent
         ++ "-N " ++ job ++ " " ++ str extra ++ " " ++ str wrapper ++ " " ++ indent
         ++ "'" ++ script ++ "'").
Proof.
  unfold format. rewrite qsub_template_eq.
  eapply eq_trans; [format_forward|].
  cbn [str]. reflexivity.
Qed.

(** Formatting the Slurm template never fails on the attributes [schedule]
    builds, whatever their values. *)
Lemma sbatch_format (dep job script log : string)
    (wrapper days hours minutes partition cores account extra : obj) :
  format Sbatch.template
    [ ("dep_str", PyStr dep); ("job_name", PyStr job); ("sbatch_job_path", wrapper);
      ("script_name", PyStr script); ("days", days); ("hours", hours);
      ("minutes", minutes); ("partition", partition); ("cores", cores);
      ("account", account); ("log_file", PyStr log); ("extra_parameters", extra) ]
  = ret ("sbatch --output=" ++ log ++ " " ++ dep ++ " -A " ++ str account
         ++ " -p " ++ str partition ++ " -n " ++ str cores
         ++ " -t " ++ str days ++ "-" ++ str hours ++ ":" ++ str minutes ++ ":00 "
         ++ indent ++ "-J " ++ job ++ " " ++ str extra ++ " " ++ str wrapper ++ " "
         ++ indent ++ "'" ++ script ++ "'").
Proof.
  unfold format. rewrite sbatch_template_eq.
  eapply eq_trans; [format_forward|].
  cbn [str]. reflexivity.
Qed.

Lemma getitem_cases (o : obj) (k : string) :
  (exists d v, o = PyDict d /\ dict_get k d = Some v /\ getitem o k = ret v) \/
  getitem o k = raise (KeyError k) \/
  getitem o k = raise TypeError.
Proof.
  destruct o; auto. cbn. destruct (dict_get k d) as [v|] eqn:E; auto.
  left. now exists d, v.
Qed.

Lemma qsub_file_names script props deps conf :
  output_file_name (Qsub.job (Qsub.init script props deps conf)) "-qsub.out"
    ("snakemake-" ++ rule (Qsub.job (Qsub.init script props deps conf)) ++ "-qsub.out")
  = spec_file_name GridEngine props ".out" /\
  output_file_name (Qsub.job (Qsub.init script props deps conf)) "-qsub.err"
    ("snakemake-" ++ rule (Qsub.job (Qsub.init script props deps conf)) ++ "-qsub.err")
  = spec_file_name GridEngine props ".err".
Proof.
  unfold output_file_name, spec_file_name.
  cbn [Qsub.job Qsub.init SnakeJob_init ofiles rule].
  destruct (jp_output props); split; reflexivity.
Qed.

Lemma sbatch_file_name script props deps conf :
  output_file_name (Sbatch.job (Sbatch.init script props deps conf)) "-slurm.out"
    ("snakemake-" ++ rule (Sbatch.job (Sbatch.init script props deps conf)) ++ "-slurm.out")
  = spec_file_name Slurm props ".out".
Proof.
  unfold output_file_name, spec_file_name.
  cbn [Sbatch.job Sbatch.init SnakeJob_init ofiles rule].
  destruct (jp_output props); reflexivity.
Qed.

Section CommandInFull.

Variables (script : string) (props : job_properties)
          (deps : option (list obj)) (conf : dict).

(** The grid-engine command. When the rule resolves to a record with a
    [queue] and a [threads] entry and the configuration has a
    [qsub_general] section with a [wrapper_script], the command is built
    and reads: [qsub], the log and error files, the dependency option,
    queue and threads, the job name [snakemake_<rule>], the extra
    parameters (empty when the record has none), the wrapper script and,
    last, the job script in single quotes. *)
Theorem qsub_command_in_full (record general : dict) (wrapper queue threads : obj) :
  rule_conf (job_of script props deps conf) = ret (PyDict record) ->
  dict_get "qsub_general" conf = Some (PyDict general) ->
  dict_get "wrapper_script" general = Some wrapper ->
  dict_get "queue" record = Some queue ->
  dict_get "threads" record = Some threads ->
  command GridEngine script props deps conf =
  ret ("qsub -o " ++ spec_file_name GridEngine props ".out"
       ++ " -e " ++ spec_file_name GridEngine props ".err"
       ++ " " ++ dep_str GridEngine script props deps conf
       ++ " -q " ++ str queue ++ " -pe smp " ++ str threads ++ " " ++ indent
       ++ "-N " ++ ("snakemake_" ++ jp_rule props)
       ++ " " ++ str (extra_parameters_of record)
       ++ " " ++ str wrapper ++ " " ++ indent ++ "'" ++ script ++ "'").
Proof.
  intros Hrule Hg Hw Hq Ht.
  rewrite qsub_cmd_eq, Hrule, bind_ret_l. unfold Qsub.attributes.
  cbn [config Qsub.job Qsub.init SnakeJob_init].
  rewrite (getitem_some _ _ _ Hg), bind_ret_l.
  rewrite (getitem_some _ _ _ Hw), bind_ret_l.
  rewrite (getitem_some _ _ _ Hq), bind_ret_l.
  rewrite (getitem_some _ _ _ Ht), bind_ret_l.
  rewrite get_default_dict, !bind_ret_l.
  fold (SnakeJob_init script props deps conf).
  change (format_from None Qsub.template ?a) with (format Qsub.template a).
  rewrite qsub_format.
  destruct (qsub_file_names script props deps conf) as [Hlog Herr].
  cbn [Qsub.job Qsub.init rule SnakeJob_init] in Hlog, Herr.
  cbn [rule scriptname Qsub.dep_str Qsub.job Qsub.init SnakeJob_init].
  fold (SnakeJob_init script props deps conf).
  fold (Qsub.init script props deps conf).
  rewrite Hlog, Herr. reflexivity.
Qed.

(** The Slurm command. When the rule resolves to a record with [days],
    [hours], [minutes], [partition] and [cores] and the configuration has
    an [sbatch_general] section with a [wrapper_script] and an [account],
    the command is built and reads: [sbatch], the log file, the dependency
    option, account, partition, cores, the time limit
    [<days>-<hours>:<minutes>:00], the job name [snakemake_<rule>], the
    extra parameters (empty when the record has none), the wrapper script
    and, last, the job script in single quotes. *)
Theorem sbatch_command_in_full (record general : dict)
    (wrapper account days hours minutes partition cores : obj) :
  rule_conf (job_of script props deps conf) = ret (PyDict record) ->
  dict_get "sbatch_general" conf = Some (PyDict general) ->
  dict_get "wrapper_script" general = Some wrapper ->
  dict_get "account" general = Some account ->
  dict_get "days" record = Some days ->
  dict_get "hours" record = Some hours ->
  dict_get "minutes" record = Some minutes ->
  dict_get "partition" record = Some partition ->
  dict_get "cores" record = Some cores ->
  command Slurm script props deps conf =
  ret ("sbatch --output=" ++ spec_file_name Slurm props ".out"
       ++ " " ++ dep_str Slurm script props deps conf
       ++ " -A " ++ str account ++ " -p " ++ str partition ++ " -n " ++ str cores
       ++ " -t " ++ str days ++ "-" ++ str hours ++ ":" ++ str minutes ++ ":00 "
       ++ indent ++ "-J " ++ ("snakemake_" ++ jp_rule props)
       ++ " " ++ str (extra_parameters_of record)
       ++ " " ++ str wrapper ++ " " ++ indent ++ "'" ++ script ++ "'").
Proof.
  intros Hrule Hg Hw Ha Hd Hh Hm Hp Hc.
  rewrite sbatch_cmd_eq, Hrule, bind_ret_l. unfold Sbatch.attributes.
  cbn [config Sbatch.job Sbatch.init SnakeJob_init].
  rewrite (getitem_some _ _ _ Hg), bind_ret_l.
  rewrite (getitem_some _ _ _ Hw), bind_ret_l.
  rewrite (getitem_some _ _ _ Hd), bind_ret_l.
  rewrite (getitem_some _ _ _ Hh), bind_ret_l.
  rewrite (getitem_some _ _ _ Hm), bind_ret_l.
  rewrite (getitem_some _ _ _ Hp), bind_ret_l.
  rewrite (getitem_some _ _ _ Hc), !bind_ret_l.
  rewrite (getitem_some _ _ _ Ha), bind_ret_l.
  rewrite get_default_dict, !bind_ret_l.
  fold (SnakeJob_init script props deps conf).
  change (format_from None Sbatch.template ?a) with (format Sbatch.template a).
  rewrite sbatch_format.
  pose proof (sbatch_file_name script props deps conf) as Hlog.
  cbn [Sbatch.job Sbatch.init rule SnakeJob_init] in Hlog.
  cbn [rule scriptname Sbatch.dep_str Sbatch.job Sbatch.init SnakeJob_init].
  fold (SnakeJob_init script props deps conf).
  fold (Sbatch.init script props deps conf).
  rewrite Hlog. reflexivity.
Qed.

End CommandInFull.

Lemma qsub_command_in_full_witness :
  command GridEngine Sample.script Sample.props Sample.deps Sample.conf_qsub =
  ret ("qsub -o out/a.bam-qsub.out -e out/a.bam-qsub.err -hold_jid 5,7 -q all.q -pe smp 4 "
       ++ indent ++ "-N snakemake_map  wrap.sh " ++ indent ++ "'snakejob.map.1.sh'").
Proof.
  exact (qsub_command_in_full Sample.script Sample.props Sample.deps Sample.conf_qsub
           [("queue", PyStr "all.q"); ("threads", PyInt 4)]
           [("wrapper_script", PyStr "wrap.sh")]
           (PyStr "wrap.sh") (PyStr "all.q") (PyInt 4)
           eq_refl eq_refl eq_refl eq_refl eq_refl).
Defined.

Lemma sbatch_command_in_full_witness :
  command Slurm Sample.script Sample.props Sample.deps Sample.conf_sbatch =
  ret ("sbatch --output=out/a.bam-slurm.out -d afterok:5,afterok:7 -A b2010 -p core -n 1 -t 0-1:30:00 "
       ++ indent ++ "-J snakemake_map -C fat wrap.sh " ++ indent ++ "'snakejob.map.1.sh'").
Proof.
  exact (sbatch_command_in_full Sample.script Sample.props Sample.deps Sample.conf_sbatch
           [("days", PyInt 0); ("hours", PyInt 1); ("minutes", PyInt 30);
            ("partition", PyStr "core"); ("cores", PyInt 1);
            ("extra_parameters", PyStr "-C fat")]
           [("wrapper_script", PyStr "wrap.sh"); ("account", PyStr "b2010")]
           (PyStr "wrap.sh") (PyStr "b2010") (PyInt 0) (PyInt 1) (PyInt 30)
           (PyStr "core") (PyInt 1)
           eq_refl eq_refl eq_refl eq_refl eq_refl eq_refl eq_refl eq_refl eq_refl).
Defined.

(** ** How building the command can fail *)

Ltac getitem_step o k :=
  let E := fresh "E" in
  destruct (getitem_cases o k) as [(? & ? & ? & ? & E) | [E | E]];
  rewrite E;
  [ subst; rewrite bind_ret_l
  | rewrite bind_raise_l; right; left; eexists; reflexivity
  | rewrite bind_raise_l; right; right; reflexivity ].

Lemma qsub_attributes_cases (self : Qsub.SnakeJobQsub) (rc : obj) :
  (exists attrs, Qsub.attributes self rc = ret attrs /\
                 exists cmd, format Qsub.template attrs = ret cmd) \/
  (exists k, Qsub.attributes self rc = raise (KeyError k)) \/
  Qsub.attributes self rc = raise TypeError.
Proof.
  unfold Qsub.attributes.
  getitem_step (PyDict (config (Qsub.job self))) "qsub_general".
  match goal with |- context [getitem ?g "wrapper_script"] =>
    getitem_step g "wrapper_script" end.
  getitem_step rc "queue".
  match goal with |- context [getitem ?r "threads"] => getitem_step r "threads" end.
  rewrite get_default_dict, bind_ret_l.
  left. eexists. split; [reflexivity|]. eexists. apply qsub_format.
Qed.

Lemma sbatch_attributes_cases (self : Sbatch.SnakeJobSbatch) (rc : obj) :
  (exists attrs, Sbatch.attributes self rc = ret attrs /\
                 exists cmd, format Sbatch.template attrs = ret cmd) \/
  (exists k, Sbatch.attributes self rc = raise (KeyError k)) \/
  Sbatch.attributes self rc = raise TypeError.
Proof.
  unfold Sbatch.attributes.
  destruct (dict_get "sbatch_general" (config (Sbatch.job self))) as [g|] eqn:Eg.
  2: { rewrite (getitem_none _ _ Eg), bind_raise_l. right; left. eexists. reflexivity. }
  rewrite (getitem_some _ _ _ Eg), !bind_ret_l.
  getitem_step g "wrapper_script".
  getitem_step rc "days".
  match goal with |- context [getitem ?r "hours"] => getitem_step r "hours" end.
  match goal with |- context [getitem ?r "minutes"] => getitem_step r "minutes" end.
  match goal with |- context [getitem ?r "partition"] => getitem_step r "partition" end.
  match goal with |- context [getitem ?r "cores"] => getitem_step r "cores" end.
  rewrite bind_ret_l.
  match goal with |- context [getitem ?r "account"] => getitem_step r "account" end.
  rewrite get_default_dict, bind_ret_l.
  left. eexists. split; [reflexivity|]. eexists. apply sbatch_format.
Qed.

Lemma rule_conf_result (self : SnakeJob) :
  (exists rc, rule_conf self = ret rc) \/
  (exists msg, rule_conf self = raise (UndefinedJobRule msg)).
Proof.
  rewrite rule_conf_cases.
  destruct (dict_get _ (config self)) as [[| | |s| |]|]; eauto.
  destruct (String.prefix "schedule_" s); eauto.
  destruct (dict_get s (config self)); eauto.
Qed.

Section CommandFailure.

Variables (b : backend) (script : string) (props : job_properties)
          (deps : option (list obj)) (conf : dict).

Lemma command_raises_cases (e : exn) :
  result (command b script props deps conf) = inl e ->
  (exists msg, e = UndefinedJobRule msg) \/ (exists k, e = KeyError k) \/ e = TypeError.
Proof.
  destruct b; [rewrite qsub_cmd_eq | rewrite sbatch_cmd_eq].
  - destruct (rule_conf_result (job_of script props deps conf)) as [[rc ->]|[msg ->]].
    + rewrite bind_ret_l.
      destruct (qsub_attributes_cases (Qsub.init script props deps conf) rc)
        as [(attrs & -> & cmd & Hf) | [[k ->] | ->]].
      * rewrite bind_ret_l. rewrite format_eq in Hf. rewrite Hf. discriminate.
      * intros [= <-]. eauto.
      * intros [= <-]. eauto.
    + intros [= <-]. eauto.
  - destruct (rule_conf_result (job_of script props deps conf)) as [[rc ->]|[msg ->]].
    + rewrite bind_ret_l.
      destruct (sbatch_attributes_cases (Sbatch.init script props deps conf) rc)
        as [(attrs & -> & cmd & Hf) | [[k ->] | ->]].
      * rewrite bind_ret_l. rewrite format_eq in Hf. rewrite Hf. discriminate.
      * intros [= <-]. eauto.
      * intros [= <-]. eauto.
    + intros [= <-]. eauto.
Qed.

(** Building the command raises nothing but [UndefinedJobRule] (no
    configuration for the rule), [KeyError] (a section or a field is
    missing) or [TypeError] (a section or the resolved value is not a
    record).  In particular formatting the template never fails, and the
    [AttributeError] of [rule_conf.get] cannot be reached. *)
Theorem command_failure_modes (e : exn) :
  result (command b script props deps conf) = inl e ->
  (exists msg, e = UndefinedJobRule msg) \/ (exists k, e = KeyError k) \/ e = TypeError.
Proof. exact (command_raises_cases e). Qed.

(** The backend-wide section is read first: when it is missing, a rule
    that resolves still gets no command, and the failure is the [KeyError]
    of the section's name. *)
Theorem missing_general_section (rc : obj) :
  rule_conf (job_of script props deps conf) = ret rc ->
  dict_get (general_key b) conf = None ->
  command b script props deps conf = raise (KeyError (general_key b)).
Proof.
  intros Hrule Hg.
  destruct b; cbn [general_key] in *; [rewrite qsub_cmd_eq | rewrite sbatch_cmd_eq];
    rewrite Hrule, bind_ret_l;
    [unfold Qsub.attributes | unfold Sbatch.attributes];
    cbn [config Qsub.job Qsub.init Sbatch.job Sbatch.init SnakeJob_init];
    rewrite (getitem_none _ _ Hg); reflexivity.
Qed.

(** A resolved value that is not a record (the string a second redirect
    leaves, a number, a list) makes the first field access fail: with the
    backend-wide section and its wrapper script in place, building the
    command raises [TypeError]. *)
Theorem unresolved_value_type_error (rc : obj) (general : dict) (wrapper : obj) :
  rule_conf (job_of script props deps conf) = ret rc ->
  (forall d, rc <> PyDict d) ->
  dict_get (general_key b) conf = Some (PyDict general) ->
  dict_get "wrapper_script" general = Some wrapper ->
  command b script props deps conf = raise TypeError.
Proof.
  intros Hrule Hrc Hg Hw.
  destruct b; cbn [general_key] in *; [rewrite qsub_cmd_eq | rewrite sbatch_cmd_eq];
    rewrite Hrule, bind_ret_l;
    [unfold Qsub.attributes | unfold Sbatch.attributes];
    cbn [config Qsub.job Qsub.init Sbatch.job Sbatch.init SnakeJob_init];
    rewrite (getitem_some _ _ _ Hg), !bind_ret_l;
    rewrite (getitem_some _ _ _ Hw), bind_ret_l;
    rewrite (getitem_not_dict rc _ Hrc); reflexivity.
Qed.

End CommandFailure.

Lemma command_failure_modes_witness :
  (exists msg, KeyError "qsub_general" = UndefinedJobRule msg) \/
  (exists k, KeyError "qsub_general" = KeyError k) \/
  KeyError "qsub_general" = TypeError.
Proof.
  exact (command_failure_modes GridEngine Sample.script Sample.props Sample.deps
           Sample.conf_sbatch (KeyError "qsub_general") eq_refl).
Defined.

Lemma missing_general_section_witness :
  command GridEngine Sample.script Sample.props Sample.deps Sample.conf_sbatch
  = raise (KeyError "qsub_general").
Proof.
  exact (missing_general_section GridEngine Sample.script Sample.props Sample.deps
           Sample.conf_sbatch _ eq_refl eq_refl).
Defined.

(** Two redirects in a row leave a string where a record is needed. *)
Lemma unresolved_value_type_error_witness :
  command GridEngine Sample.script Sample.props Sample.deps
    [("qsub_general", PyDict [("wrapper_script", PyStr "wrap.sh")]);
     ("schedule_map", PyStr "schedule_a");
     ("schedule_a", PyStr "schedule_b");
     ("schedule_b", PyDict [("queue", PyStr "all.q"); ("threads", PyInt 4)])]
  = raise TypeError.
Proof.
  refine (unresolved_value_type_error GridEngine Sample.script Sample.props Sample.deps
            _ (PyStr "schedule_b") [("wrapper_script", PyStr "wrap.sh")] (PyStr "wrap.sh")
            _ _ _ _).
  - reflexivity.
  - discriminate.
  - reflexivity.
  - reflexivity.
Defined.

(** ** Every run, case by case *)

Lemma print_job_id_cases (out : Py.bytes) (token : option Py.bytes) :
  print_job_id out token = ([], inl IndexError) \/
  (exists n, print_job_id out token = ([Stdout (Py.str_of_int n)], inr tt)) \/
  print_job_id out token =
    ([Stdout ("Not a submitted job: " ++ Py.repr_bytes out)], inl (SystemExit 2)).
Proof.
  destruct token as [tok|]; [|now left].
  unfold print_job_id. destruct (Py.int tok) as [n|]; [|now right; right].
  right; left. now exists n.
Qed.

Lemma made_dirs_app (t t' : list event) :
  made_dirs (t ++ t') = (made_dirs t ++ made_dirs t')%list.
Proof. induction t as [|[] t IH]; simpl; now rewrite ?IH. Qed.

Lemma directory_step_raises (w : world) script props deps conf (e : exn) :
  result (directory_step w script props deps conf) = inl e ->
  exists n, e = OSError n /\ n <> EEXIST.
Proof.
  unfold directory_step. rewrite ensure_output_directory_eq.
  destruct (ofiles _) as [|first rest]; [discriminate|]. cbn.
  destruct (makedirs w _) as [n|]; [|discriminate].
  destruct (Z.eqb_spec n EEXIST); [discriminate|].
  intros [= <-]. now exists n.
Qed.

Section Runs.

Variables (b : backend) (w : world) (script : string) (props : job_properties)
          (deps : option (list obj)) (conf : dict).

Local Abbreviation run := (schedule b w script props deps conf).
Local Abbreviation dir := (directory_step w script props deps conf).
Local Abbreviation cmd_of := (command b script props deps conf).

(** The three ways a run can go. *)
Lemma run_cases :
  (exists n, n <> EEXIST /\ result dir = inl (OSError n) /\
             run = (trace dir, inl (OSError n))) \/
  (exists e, result dir = inr tt /\ result cmd_of = inl e /\
             run = (trace dir, inl e)) \/
  (exists cmd, result dir = inr tt /\ result cmd_of = inr cmd /\
     run = ((trace dir ++ Stderr cmd :: Popen cmd ::
             trace (print_job_id (communicate w cmd)
                      (job_id_token b (communicate w cmd))))%list,
            result (print_job_id (communicate w cmd)
                      (job_id_token b (communicate w cmd))))).
Proof.
  destruct (result dir) as [e|[]] eqn:Ed.
  - left. destruct (directory_step_raises _ _ _ _ _ _ Ed) as (n & -> & Hn).
    exists n. repeat split; auto. now apply schedule_directory_raises.
  - right. destruct (result cmd_of) as [e|cmd] eqn:Ec.
    + left. exists e. repeat split. now apply schedule_command_raises.
    + right. exists cmd. repeat split.
      rewrite (schedule_submits _ _ _ _ _ _ cmd Ed Ec). now rewrite report_eq.
Qed.

Lemma dir_silent :
  spawned (trace dir) = [] /\ stdout_of (trace dir) = "" /\ stderr_of (trace dir) = [].
Proof. apply ensure_output_directory_spawns_nothing. Qed.

(** At most one command is run, and the text echoed to the diagnostic
    stream is exactly the command that is run; standard output is written
    only by a run that submitted a command. *)
Theorem echo_is_what_runs :
  stderr_of (trace run) = spawned (trace run) /\
  (length (spawned (trace run)) <= 1)%nat /\
  (stdout_of (trace run) <> "" -> exists cmd, submitted run cmd).
Proof.
  destruct dir_silent as (Hs & Ho & He). unfold submitted.
  destruct run_cases as [(n & _ & _ & ->) | [(e & _ & _ & ->) | (cmd & _ & _ & ->)]];
    cbn [trace fst].
  - rewrite Hs, Ho, He. repeat split; auto. congruence.
  - rewrite Hs, Ho, He. repeat split; auto. congruence.
  - rewrite stderr_of_app, spawned_app, Hs, He.
    destruct (print_job_id_cases (communicate w cmd) (job_id_token b (communicate w cmd)))
      as [-> | [[n ->] | ->]]; cbn; repeat split; eauto.
Qed.

(** Whatever the outcome, [os.makedirs] is called once, on the directory
    of the first output path, for a job with output paths, and never for a
    job without. *)
Theorem directory_made_once :
  made_dirs (trace run) =
  match jp_output props with
  | [] => []
  | first :: _ => [dirname (abspath w first)]
  end.
Proof.
  assert (Hd : made_dirs (trace dir) =
               match jp_output props with
               | [] => []
               | first :: _ => [dirname (abspath w first)]
               end).
  { rewrite directory_step_trace. now destruct (jp_output props). }
  destruct run_cases as [(n & _ & _ & ->) | [(e & _ & _ & ->) | (cmd & _ & _ & ->)]];
    cbn [trace fst]; try exact Hd.
  rewrite made_dirs_app, Hd.
  destruct (print_job_id_cases (communicate w cmd) (job_id_token b (communicate w cmd)))
    as [-> | [[n ->] | ->]]; cbn; now rewrite app_nil_r.
Qed.

(** The exit status is 0, 1 or 2, and it is 0 exactly when standard output
    holds one line with a job id. *)
Theorem exit_status_zero_iff_job_id :
  (snd (run_main run) = 0 \/ snd (run_main run) = 1 \/ snd (run_main run) = 2) /\
  (snd (run_main run) = 0 <->
   exists n, stdout_of (trace run) = Py.str_of_int n ++ newline).
Proof.
  destruct dir_silent as (Hs & Ho & He).
  destruct run_cases as [(n & _ & _ & ->) | [(e & _ & Hc & ->) | (cmd & _ & _ & ->)]].
  - cbn [run_main snd trace fst]. rewrite Ho. split; [auto|].
    split; [discriminate|]. intros [m H]. destruct (Py.str_of_int m); discriminate.
  - assert (Hx : snd (run_main (trace dir, @inl exn unit e)) = 1 \/
                 snd (run_main (trace dir, @inl exn unit e)) = 2).
    { destruct (command_raises_cases _ _ _ _ _ _ Hc) as [[msg ->] | [[k ->] | ->]];
        cbn; auto. }
    cbn [trace fst]. rewrite Ho. split; [tauto|].
    split; [intros H0; destruct Hx as [Hx|Hx]; rewrite Hx in H0; discriminate|].
    intros [m H]. destruct (Py.str_of_int m); discriminate.
  - cbn [trace fst]. rewrite stdout_of_app, Ho.
    destruct (print_job_id_cases (communicate w cmd) (job_id_token b (communicate w cmd)))
      as [-> | [[n ->] | ->]]; cbn [result snd run_main stdout_of String.append].
    + split; [auto|]. split; [discriminate|].
      intros [m H]. destruct (Py.str_of_int m); discriminate.
    + split; [auto|]. split; [|reflexivity]. intros _. now exists n.
    + split; [auto|]. split; [discriminate|].
      intros [m H]. exfalso.
      pose proof (str_of_int_numeral m) as Hm.
      destruct (Py.str_of_int m) as [|c s]; [discriminate|].
      injection H as Hc _. subst c. discriminate.
Qed.

(** A run that ends with [UndefinedJobRule], for a missing rule or for a
    redirect to a missing key, has neither echoed nor run a command nor
    written to standard output; the script then writes the message, and
    only the message, to the diagnostic stream and exits with status 2. *)
Theorem undefined_job_rule_reported (msg : string) :
  result run = inl (UndefinedJobRule msg) ->
  fst (run_main run) = (trace dir ++ [Stderr msg])%list /\
  stderr_of (fst (run_main run)) = [msg] /\
  stdout_of (fst (run_main run)) = "" /\
  spawned (fst (run_main run)) = [] /\
  snd (run_main run) = 2.
Proof.
  destruct dir_silent as (Hs & Ho & He).
  destruct run_cases as [(n & _ & _ & ->) | [(e & _ & _ & ->) | (cmd & _ & _ & ->)]];
    cbn [result snd].
  - discriminate.
  - intros [= ->]. cbn [run_main fst snd].
    rewrite stderr_of_app, stdout_of_app, spawned_app, Hs, Ho, He. now cbn.
  - destruct (print_job_id_cases (communicate w cmd) (job_id_token b (communicate w cmd)))
      as [-> | [[n ->] | ->]]; discriminate.
Qed.

(** A configuration that resolves the rule but lacks a section or a field,
    or holds a value of the wrong kind, ends the run with an uncaught
    [KeyError] or [TypeError]: nothing is submitted or printed by the
    script, and the exit status is 1, not the 2 of a missing rule. *)
Theorem configuration_error_exit_status (e : exn) :
  result dir = inr tt ->
  result cmd_of = inl e ->
  (forall msg, e <> UndefinedJobRule msg) ->
  result run = inl e /\
  spawned (trace run) = [] /\
  stdout_of (trace run) = "" /\
  stderr_of (fst (run_main run)) = [] /\
  snd (run_main run) = 1.
Proof.
  intros Hd Hc Hne. destruct dir_silent as (Hs & Ho & He).
  rewrite (schedule_command_raises _ _ _ _ _ _ e Hd Hc). cbn [trace fst result snd].
  destruct (command_raises_cases _ _ _ _ _ _ Hc) as [[msg ->] | [[k ->] | ->]].
  - now destruct (Hne msg).
  - cbn [run_main fst snd]. rewrite stderr_of_app, He. now cbn.
  - cbn [run_main fst snd]. rewrite stderr_of_app, He. now cbn.
Qed.

End Runs.

Lemma echo_is_what_runs_witness :
  exists cmd, submitted (schedule GridEngine Sample.accepting Sample.script Sample.props
                           Sample.deps Sample.conf_qsub) cmd.
Proof.
  apply (echo_is_what_runs GridEngine Sample.accepting Sample.script Sample.props
           Sample.deps Sample.conf_qsub).
  discriminate.
Defined.

Lemma exit_status_zero_iff_job_id_witness :
  snd (run_main (schedule Slurm Sample.accepting Sample.script Sample.props
                   Sample.deps Sample.conf_sbatch)) = 0.
Proof.
  apply (exit_status_zero_iff_job_id Slurm Sample.accepting Sample.script Sample.props
           Sample.deps Sample.conf_sbatch).
  exists 98765. reflexivity.
Defined.

Lemma undefined_job_rule_reported_witness :
  stderr_of (fst (run_main (schedule GridEngine Sample.accepting Sample.script
                              Sample.props Sample.deps Sample.conf_dangling)))
  = ["No schedule config found for schedule_gone"].
Proof.
  refine (proj1 (proj2
    (undefined_job_rule_reported GridEngine Sample.accepting Sample.script Sample.props
       Sample.deps Sample.conf_dangling "No schedule config found for schedule_gone" _))).
  reflexivity.
Defined.

Lemma configuration_error_exit_status_witness :
  snd (run_main (schedule GridEngine Sample.accepting Sample.script Sample.props
                   Sample.deps Sample.conf_sbatch)) = 1.
Proof.
  refine (proj2 (proj2 (proj2 (proj2
    (configuration_error_exit_status GridEngine Sample.accepting Sample.script
       Sample.props Sample.deps Sample.conf_sbatch (KeyError "qsub_general") _ _ _))))).
  - reflexivity.
  - reflexivity.
  - discriminate.
Defined.

(** ** Reading back a job id *)

Lemma split_from_trailing_newline (acc : list ascii) (s : string) :
  Py.split_from acc (s ++ newline) = Py.split_from acc s.
Proof.
  revert acc. induction s as [|c s IH]; intros acc; cbn.
  - apply app_nil_r.
  - destruct (Py.isspace c); now rewrite IH.
Qed.

Lemma str_of_int_token (n : Z) : is_token (Py.str_of_int n).
Proof.
  split; [|apply no_space_str_of_int].
  unfold Py.str_of_int, NilZero.string_of_int, NilZero.string_of_uint.
  destruct (Z.to_int n) as [d|d]; destruct d; discriminate.
Qed.

(** What the adapters print is what a scheduler's acknowledgement says.
    For every integer [n] whose numeral has at most 4300 characters (the
    length up to which every Python 3 converts): a text whose third token
    is the numeral of [n] (as in [Your job <n> ("name") has been
    submitted]) makes the grid-engine adapter print [n], and a text whose
    last token is the numeral of [n] (as in [Submitted batch job <n>])
    makes the Slurm adapter print [n]; the other tokens do not matter, and
    neither does a line break at the end, present or not. *)
Theorem job_id_read_back (n : Z) (t1 t2 : string) (rest front : list string)
    (final_break : bool) :
  (String.length (Py.str_of_int n) <= 4300)%nat ->
  is_token t1 -> is_token t2 -> Forall is_token rest -> Forall is_token front ->
  (let out := String.concat " " (t1 :: t2 :: Py.str_of_int n :: rest)
              ++ (if final_break then newline else "") in
   print_job_id out (job_id_token GridEngine out) = ([Stdout (Py.str_of_int n)], inr tt)) /\
  (let out := String.concat " " (front ++ [Py.str_of_int n])
              ++ (if final_break then newline else "") in
   print_job_id out (job_id_token Slurm out) = ([Stdout (Py.str_of_int n)], inr tt)).
Proof.
  intros _ H1 H2 Hrest Hfront. pose proof (str_of_int_token n) as Hn.
  assert (Hend : forall s, Py.split (s ++ (if final_break then newline else ""))
                           = Py.split s).
  { intros s. unfold Py.split. destruct final_break.
    - apply split_from_trailing_newline.
    - now rewrite append_nil_r. }
  split; intros out.
  - assert (Hsplit : Py.split out = t1 :: t2 :: Py.str_of_int n :: rest).
    { unfold out. rewrite Hend. apply split_join.
      constructor; [assumption|]. constructor; [assumption|]. now constructor. }
    unfold job_id_token, Qsub.job_id_token. rewrite Hsplit. cbn [Py.index nth_error].
    apply print_job_id_int, int_str_of_int.
  - assert (Hsplit : Py.split out = (front ++ [Py.str_of_int n])%list).
    { unfold out. rewrite Hend.
      apply split_join. apply Forall_app. split; [assumption|]. now constructor. }
    unfold job_id_token, Sbatch.job_id_token. rewrite Hsplit, index_last_app.
    apply print_job_id_int, int_str_of_int.
Qed.

Lemma job_id_read_back_witness :
  print_job_id ("Submitted batch job 98765" ++ newline)
    (job_id_token Slurm ("Submitted batch job 98765" ++ newline))
  = ([Stdout "98765"], inr tt) /\
  print_job_id "Your job 98765 (map) has been submitted"
    (job_id_token GridEngine "Your job 98765 (map) has been submitted")
  = ([Stdout "98765"], inr tt).
Proof.
  split.
  - refine (proj2 (job_id_read_back 98765 "Your" "job" [] ["Submitted"; "batch"; "job"]
                     true _ _ _ _ _)).
    + vm_compute. lia.
    + split; [discriminate | reflexivity].
    + split; [discriminate | reflexivity].
    + constructor.
    + repeat (constructor; [split; [discriminate | reflexivity]|]). constructor.
  - refine (proj1 (job_id_read_back 98765 "Your" "job"
                     ["(map)"; "has"; "been"; "submitted"] [] false _ _ _ _ _)).
    + vm_compute. lia.
    + split; [discriminate | reflexivity].
    + split; [discriminate | reflexivity].
    + repeat (constructor; [split; [discriminate | reflexivity]|]). constructor.
    + constructor.
Defined.

(** ** Missing fields and command-line dependencies *)

Lemma dict_get_present (k : string) (d : dict) :
  dict_get k d <> None -> exists v, dict_get k d = Some v.
Proof. destruct (dict_get k d) as [v|]; [eauto | contradiction]. Qed.

Ltac present_field H :=
  let v := fresh "v" in
  let E := fresh "E" in
  destruct (dict_get_present _ _ H) as [v E];
  rewrite (getitem_some _ _ _ E), bind_ret_l.

(** A record that lacks one of the fields [schedule] reads makes the
    command fail with the [KeyError] of the first missing field, in the
    order [queue], [threads] for the grid engine and [days], [hours],
    [minutes], [partition], [cores] for Slurm. *)
Theorem missing_field_named (b : backend) script props deps conf
    (record general : dict) (wrapper : obj) (before after : list string) (k : string) :
  rule_conf (job_of script props deps conf) = ret (PyDict record) ->
  dict_get (general_key b) conf = Some (PyDict general) ->
  dict_get "wrapper_script" general = Some wrapper ->
  required_fields b = (before ++ k :: after)%list ->
  Forall (fun f => dict_get f record <> None) before ->
  dict_get k record = None ->
  command b script props deps conf = raise (KeyError k).
Proof.
  intros Hrule Hg Hw Hreq Hpre Hk.
  destruct b; cbn [general_key required_fields] in *;
    [rewrite qsub_cmd_eq | rewrite sbatch_cmd_eq];
    rewrite Hrule, bind_ret_l;
    [unfold Qsub.attributes | unfold Sbatch.attributes];
    cbn [config Qsub.job Qsub.init Sbatch.job Sbatch.init SnakeJob_init];
    rewrite (getitem_some _ _ _ Hg), !bind_ret_l;
    rewrite (getitem_some _ _ _ Hw), bind_ret_l.
  - destruct before as [|f1 [|f2 [|f3 before]]]; cbn in Hreq.
    + injection Hreq as <- _. now rewrite (getitem_none _ _ Hk).
    + injection Hreq as <- <- _. inversion_clear Hpre as [|? ? H1 _].
      present_field H1. now rewrite (getitem_none _ _ Hk).
    + injection Hreq as _ _ Hreq. discriminate.
    + injection Hreq as _ _ Hreq. destruct before; discriminate.
  - destruct before as [|f1 [|f2 [|f3 [|f4 [|f5 [|f6 before]]]]]]; cbn in Hreq.
    + injection Hreq as <- _. now rewrite (getitem_none _ _ Hk).
    + injection Hreq as <- <- _. inversion_clear Hpre as [|? ? H1 _].
      present_field H1. now rewrite (getitem_none _ _ Hk).
    + injection Hreq as <- <- <- _.
      inversion_clear Hpre as [|? ? H1 Hpre']. inversion_clear Hpre' as [|? ? H2 _].
      present_field H1. present_field H2. now rewrite (getitem_none _ _ Hk).
    + injection Hreq as <- <- <- <- _.
      inversion_clear Hpre as [|? ? H1 Hpre']. inversion_clear Hpre' as [|? ? H2 Hpre].
      inversion_clear Hpre as [|? ? H3 _].
      present_field H1. present_field H2. present_field H3.
      now rewrite (getitem_none _ _ Hk).
    + injection Hreq as <- <- <- <- <- _.
      inversion_clear Hpre as [|? ? H1 Hpre']. inversion_clear Hpre' as [|? ? H2 Hpre].
      inversion_clear Hpre as [|? ? H3 Hpre']. inversion_clear Hpre' as [|? ? H4 _].
      present_field H1. present_field H2. present_field H3. present_field H4.
      now rewrite (getitem_none _ _ Hk).
    + injection Hreq as _ _ _ _ _ Hreq. discriminate.
    + injection Hreq as _ _ _ _ _ Hreq. destruct before; discriminate.
Qed.

Lemma missing_field_named_witness :
  command Slurm Sample.script Sample.props Sample.deps
    [("sbatch_general", PyDict [("wrapper_script", PyStr "wrap.sh")]);
     ("schedule_map", PyDict [("days", PyInt 0); ("hours", PyInt 1);
                              ("partition", PyStr "core")])]
  = raise (KeyError "minutes").
Proof.
  refine (missing_field_named Slurm Sample.script Sample.props Sample.deps _
            [("days", PyInt 0); ("hours", PyInt 1); ("partition", PyStr "core")]
            [("wrapper_script", PyStr "wrap.sh")] (PyStr "wrap.sh")
            ["days"; "hours"] ["partition"; "cores"] "minutes" _ _ _ _ _ _).
  - reflexivity.
  - reflexivity.
  - reflexivity.
  - reflexivity.
  - repeat constructor; discriminate.
  - reflexivity.
Defined.

Lemma map_str_PyStr (ids : list string) : map str (map PyStr ids) = ids.
Proof. induction ids as [|i ids IH]; cbn; [reflexivity | now rewrite IH]. Qed.

(** The scripts pass the dependency ids of the command line through as
    they are, without checking that they are numbers: with no id the
    job gets no dependency option, and otherwise the option lists the
    given strings, in the given order. *)
Theorem main_dependencies_verbatim (w : world) (ids : list string) script props conf :
  Qsub.main w ids script props conf
    = run_main (Qsub.schedule w (Qsub.init script props (Some (map PyStr ids)) conf)) /\
  Sbatch.main w ids script props conf
    = run_main (Sbatch.schedule w (Sbatch.init script props (Some (map PyStr ids)) conf)) /\
  Qsub.dep_str (Qsub.init script props (Some (map PyStr ids)) conf)
    = match ids with
      | [] => ""
      | _ => "-hold_jid " ++ String.concat "," ids
      end /\
  Sbatch.dep_str (Sbatch.init script props (Some (map PyStr ids)) conf)
    = match ids with
      | [] => ""
      | _ => "-d " ++ String.concat "," (map (fun i => "afterok:" ++ i) ids)
      end.
Proof.
  split; [reflexivity|]. split; [reflexivity|].
  destruct ids as [|i ids]; [split; reflexivity|].
  split.
  - change (Qsub.dep_str (Qsub.init script props (Some (map PyStr (i :: ids))) conf))
      with ("-hold_jid " ++ String.concat "," (map str (map PyStr (i :: ids)))).
    now rewrite map_str_PyStr.
  - change (Sbatch.dep_str (Sbatch.init script props (Some (map PyStr (i :: ids))) conf))
      with ("-d " ++ String.concat ","
                       (map (fun d => "afterok:" ++ str d) (map PyStr (i :: ids)))).
    now rewrite map_map.
Qed.

(** ** Log and error file names in the command *)








Section FileNames.

Variables (script : string) (props : job_properties)
          (deps : option (list obj)) (conf : dict).


End FileNames.


